(** * Tick ingestion and reconciliation pipeline: a shallow embedding

    The development follows the Python sources file by file:

    - [business]        business.py         (P&L analysis, position ledger
                                             upsert, direction strategy, log)
    - [strategy_rules]  strategy_rules.py   (moving-average crossover)
    - [validators]      validators.py       (payload schema)
    - [ai_module]       ai_module.py        (recommendation and mothership)
    - [app]             app.py              (the /tick handler)

    Python numbers are kept abstract behind the interface [PyNumber], so
    that every general statement holds for whatever arithmetic the
    interpreter performs (binary floating point included); concrete runs use
    the exact instance [QNumber]. *)

From Stdlib Require Import QArith Qround.
From stdpp Require Import gmap strings list pretty.

Local Open Scope string_scope.
Local Open Scope list_scope.

(** ** Python numbers *)

(** The operations the sources apply to prices and quantities, with the
    few ordering facts shared by Python's [int] and [float]. *)
Class PyNumber := {
  num : Type;
  (** the literal [0.0] *)
  zero : num;
  (** [float("nan")] *)
  nan : num;
  add : num -> num -> num;
  sub : num -> num -> num;
  mul : num -> num -> num;
  (** [x > y], [x < y], [x != y] *)
  gtb : num -> num -> bool;
  ltb : num -> num -> bool;
  neb : num -> num -> bool;
  (** [round(x, 2)] *)
  round2 : num -> num;
  (** [float(x)] on a number *)
  to_float : num -> num;
  (** [statistics.mean] *)
  mean : list num -> num;
  gtb_irrefl : forall x, gtb x x = false;
  gtb_ordered : forall x y, gtb x y = true -> neb x x = false /\ neb y y = false;
  ltb_ordered : forall x y, ltb x y = true -> neb x x = false /\ neb y y = false;
  gtb_not_ltb : forall x y, gtb x y = true -> ltb x y = false;
  eq_not_ordered : forall x y, neb x y = false -> gtb x y = false /\ ltb x y = false
}.

(** [x == y] *)
Definition eqb_num `{PyNumber} (x y : num) : bool := negb (neb x y).

(** ** Day keys *)

(** The values found under the key [day] of a history row, with Python's
    [<] on them (integers or ISO date strings, depending on the sender). *)
Class PyDay := {
  day : Type;
  day_ltb : day -> day -> bool
}.

(** ** A small state-and-exception monad for the effectful code

    A program threads the files (and, in app.py, the outside services) it
    touches through a state [S]; a Python exception that nobody catches
    ends the program with [Raises]. *)

Inductive outcome (A : Type) : Type :=
  | Returns (a : A)
  | Raises (exc : string).
Arguments Returns {A} a.
Arguments Raises {A} exc.

Definition Prog (S A : Type) : Type := S -> outcome A * S.

Definition ret {S A} (a : A) : Prog S A := fun s => (Returns a, s).

Definition bind {S A B} (c : Prog S A) (k : A -> Prog S B) : Prog S B :=
  fun s =>
    match c s with
    | (Returns a, s') => k a s'
    | (Raises e, s') => (Raises e, s')
    end.

Definition raise {S A} (exc : string) : Prog S A := fun s => (Raises exc, s).

Definition gets {S A} (f : S -> A) : Prog S A := fun s => (Returns (f s), s).

Definition modify {S} (f : S -> S) : Prog S unit := fun s => (Returns tt, f s).

(** [try: c except Exception as e: h e] *)
Definition try_except {S A} (c : Prog S A) (h : string -> Prog S A) : Prog S A :=
  fun s =>
    match c s with
    | (Returns a, s') => (Returns a, s')
    | (Raises e, s') => h e s'
    end.

Notation "'let!' x ':=' c 'in' k" := (bind c (fun x => k))
  (at level 10, x name, c at level 100, k at level 200).
Notation "'do!' c 'in' k" := (bind c (fun _ => k))
  (at level 10, c at level 100, k at level 200).

(** ** Data model shared by the sources

    The dictionaries decoded from JSON are read as records whose fields are
    the keys the sources access. A position taken from a tick body needs
    only [ticker], [quantity] and [purchase_price]; nothing in app.py or in
    [analyze_tick] reads its other two fields. *)

Section DataModel.
Context `{PyNumber} `{PyDay}.

Record Position : Type := {
  ticker : string;
  quantity : num;
  purchase_price : num;
  current_price : num;
  unrealized_pnl : num
}.

Record MarketSummaryItem : Type := {
  ms_ticker : string;
  ms_current_price : num
}.

Record HistoryPoint : Type := {
  h_ticker : string;
  h_price : num;
  h_day : day
}.

(** The body of a tick request; [None] is a key that is absent. *)
Record Payload : Type := {
  Positions : option (list Position);
  Market_Summary : option (list MarketSummaryItem);
  market_history : option (list HistoryPoint)
}.

(** [{item['ticker']: float(item['current_price']) for item in market_summary}] *)
Definition price_lookup (market_summary : list MarketSummaryItem) : gmap string num :=
  fold_left (fun d item => <[ms_ticker item := to_float (ms_current_price item)]> d)
            market_summary ∅.

(** One turn of the loop that accumulates P&L over the positions; the
    second component counts the positions that had a quoted price. *)
Definition pnl_step (current_prices : gmap string num)
    (acc : num * nat) (position : Position) : num * nat :=
  let qty := to_float (quantity position) in
  let bought := to_float (purchase_price position) in
  match current_prices !! ticker position with
  | Some price =>
      (add (fst acc) (mul (sub price bought) qty), S (snd acc))
  | None => acc
  end.

End DataModel.

(** ** business.py *)

Module business.
Section WithNumbers.
Context `{PyNumber} `{PyDay}.

(** The tick handed to the continuous flow:
    [{ticker, price, quantity, purchase_price}]. *)
Record TickData : Type := {
  tick_ticker : string;
  tick_price : num;
  tick_quantity : num;
  tick_purchase_price : num
}.

(** A record of data/trading_history.json; [tx_quantity = None] is a
    record without the [quantity] key. *)
Record Transaction : Type := {
  tx_date : string;
  tx_ticker : string;
  tx_action : string;
  tx_price : num;
  tx_note : string;
  tx_quantity : option num
}.

(** The two files under data/ ([None]: missing or corrupt), and the
    calendar date [datetime.now()] formats. *)
Record Files : Type := {
  POSITIONS_FILE : option (list Position);
  HISTORY_FILE : option (list Transaction);
  today : string
}.

Record Summary : Type := {
  positions_evaluated : nat;
  summary_unrealized_pnl : num
}.

Record Analysis : Type := {
  result : string;
  summary : Summary;
  decisions : list string
}.

Definition analyze_tick (payload : Payload) : Analysis :=
  let positions := default [] (Positions payload) in
  let market_summary := default [] (Market_Summary payload) in
  let current_prices := price_lookup market_summary in
  let totals := fold_left (pnl_step current_prices) positions (zero, 0%nat) in
  {| result := "success";
     summary := {| positions_evaluated := snd totals;
                   summary_unrealized_pnl := fst totals |};
     decisions := [] |}.

(** [load_json_file]: a missing or corrupt file reads as the empty array. *)
Definition load_json_file {A} (file : option (list A)) : list A :=
  match file with
  | Some data => data
  | None => []
  end.

Definition load_positions : Prog Files (list Position) :=
  gets (fun fs => load_json_file (POSITIONS_FILE fs)).

Definition save_positions (data : list Position) : Prog Files unit :=
  modify (fun fs => {| POSITIONS_FILE := Some data;
                       HISTORY_FILE := HISTORY_FILE fs;
                       today := today fs |}).

Definition load_history : Prog Files (list Transaction) :=
  gets (fun fs => load_json_file (HISTORY_FILE fs)).

Definition save_history (data : list Transaction) : Prog Files unit :=
  modify (fun fs => {| POSITIONS_FILE := POSITIONS_FILE fs;
                       HISTORY_FILE := Some data;
                       today := today fs |}).

(** The [for position in positions: ... break] loop of
    [update_current_positions]: the list after the in-place update, the
    value of [old_price] and of [position_found]. *)
Fixpoint find_and_update (tkr : string) (new_price : num)
    (positions : list Position) : list Position * option num * bool :=
  match positions with
  | [] => ([], None, false)
  | position :: rest =>
      if String.eqb (ticker position) tkr then
        ({| ticker := ticker position;
            quantity := quantity position;
            purchase_price := purchase_price position;
            current_price := new_price;
            unrealized_pnl :=
              round2 (mul (sub new_price (purchase_price position))
                          (quantity position)) |} :: rest,
         Some (current_price position), true)
      else
        let '(rest', old_price, position_found) :=
          find_and_update tkr new_price rest in
        (position :: rest', old_price, position_found)
  end.

Definition update_current_positions (tick_data : TickData)
    : Prog Files (option num) :=
  let! positions := load_positions in
  let tkr := tick_ticker tick_data in
  let new_price := tick_price tick_data in
  let qty := tick_quantity tick_data in
  let bought := tick_purchase_price tick_data in
  let '(positions, old_price, position_found) :=
    find_and_update tkr new_price positions in
  let '(positions, old_price) :=
    if negb position_found then
      (positions ++ [{| ticker := tkr;
                        quantity := qty;
                        purchase_price := bought;
                        current_price := new_price;
                        unrealized_pnl := zero |}],
       Some new_price)
    else (positions, old_price) in
  do! save_positions positions in
  ret old_price.

Definition log_transaction (action tkr : string) (price : num)
    (note : string) (qty : option num) : Prog Files unit :=
  let! history := load_history in
  let! date := gets today in
  let transaction :=
    {| tx_date := date;
       tx_ticker := tkr;
       tx_action := action;
       tx_price := round2 price;
       tx_note := note;
       tx_quantity := qty |} in
  save_history (history ++ [transaction]).

Definition execute_trading_strategy (tick_data : TickData)
    (previous_price : option num) : Prog Files string :=
  let price := tick_price tick_data in
  let tkr := tick_ticker tick_data in
  let qty := tick_quantity tick_data in
  match previous_price with
  | None => ret "INITIAL"
  | Some previous =>
      if gtb price previous then
        do! log_transaction "SELL" tkr price
              "Price increased - sell signal" (Some qty) in
        ret "SELL"
      else
        do! log_transaction "TICK_UPDATE" tkr price
              "Price decreased - stay" None in
        ret "STAY"
  end.

End WithNumbers.
End business.

(** ** strategy_rules.py *)

Module strategy_rules.
Section WithNumbers.
Context `{PyNumber} `{PyDay}.

(** [values[-window:]] for a positive [window]. *)
Definition last_slice (window : Z) (values : list num) : list num :=
  drop (length values - Z.to_nat window) values.

Definition _sma (values : list num) (window : Z) : num :=
  if (window <=? 0)%Z || (Z.of_nat (length values) <? window)%Z then nan
  else mean (last_slice window values).

(** [sorted(history_rows, key=lambda r: r["day"])]: a stable sort that
    compares keys with [<] only; it is the result of Python's sort whenever
    [<] orders the keys. *)
Fixpoint insert_row (r : HistoryPoint) (rows : list HistoryPoint)
    : list HistoryPoint :=
  match rows with
  | [] => [r]
  | x :: rest =>
      if day_ltb (h_day x) (h_day r) then x :: insert_row r rest
      else r :: x :: rest
  end.

Fixpoint sorted (history_rows : list HistoryPoint) : list HistoryPoint :=
  match history_rows with
  | [] => []
  | r :: rest => insert_row r (sorted rest)
  end.

Definition decide_from_history (tkr : string)
    (history_rows : list HistoryPoint) : string :=
  let prices := map (fun r => to_float (h_price r)) (sorted history_rows) in
  if (length prices <? 3)%nat then "HOLD"
  else
    let short := _sma prices 3 in
    let long :=
      if (5 <=? length prices)%nat then _sma prices 5
      else _sma prices (Z.of_nat (length prices)) in
    if neb short short || neb long long then "HOLD"
    else if gtb short long then "BUY"
    else if ltb short long then "SELL"
    else "HOLD".

(** The simple moving average as the specification words it: the mean of
    the most recent [n] prices. *)
Definition SMA (n : nat) (prices : list num) : num :=
  mean (drop (length prices - n) prices).

(** Rows whose days never decrease from one row to the next. *)
Fixpoint ascending (rows : list HistoryPoint) : Prop :=
  match rows with
  | [] => True
  | r :: rest =>
      match rest with
      | [] => True
      | x :: _ => day_ltb (h_day x) (h_day r) = false
      end /\ ascending rest
  end.

End WithNumbers.
End strategy_rules.

(** ** validators.py *)

(** Values decoded from a JSON body. *)
#[local] Set Warnings "-register-all".
Inductive json `{PyNumber} : Type :=
  | JNull
  | JBool (b : bool)
  | JInt (z : Z)
  | JNum (n : num)
  | JStr (s : string)
  | JArr (items : list json)
  | JObj (fields : gmap string json).

(** What a call of the built-in [float()] or [int()] does inside a
    [try: ... except (ValueError, TypeError)] block. *)
Inductive coercion : Type :=
  | Coerced
  | ValueOrTypeError
  | OtherError (exc : string).

Module validators.
Section WithBuiltins.
Context `{PyNumber}.

(** Python's built-in [float()] and [int()] on a decoded value. *)
Variable py_float : json -> coercion.
Variable py_int : json -> coercion.

(** The state of a validation in progress: [Returns None] when every
    check so far passed, [Returns (Some msg)] when the validator has
    executed [return False, msg]. *)
Definition verdict : Type := outcome (option string).

Definition and_then (v : verdict) (k : verdict) : verdict :=
  match v with
  | Returns None => k
  | _ => v
  end.

(** [d[key]] *)
Definition subscript (d : gmap string json) (key : string)
    (k : json -> verdict) : verdict :=
  match d !! key with
  | Some v => k v
  | None => Raises "KeyError"
  end.

(** [for key in keys: if key not in d: return ...] *)
Fixpoint first_missing (keys : list string) (d : gmap string json)
    : option string :=
  match keys with
  | [] => None
  | key :: rest =>
      match d !! key with
      | None => Some key
      | Some _ => first_missing rest d
      end
  end.

Definition is_str (v : json) : bool :=
  match v with JStr _ => true | _ => false end.

(** [try: float(a); float(b) except (ValueError, TypeError): return False, msg] *)
Definition try_coerce (first second : coercion) (msg : string) : verdict :=
  match first with
  | Coerced =>
      match second with
      | Coerced => Returns None
      | ValueOrTypeError => Returns (Some msg)
      | OtherError e => Raises e
      end
  | ValueOrTypeError => Returns (Some msg)
  | OtherError e => Raises e
  end.

(** [for i, item in enumerate(items): ...] with early return. *)
Fixpoint for_each (check : nat -> json -> verdict) (i : nat)
    (items : list json) : verdict :=
  match items with
  | [] => Returns None
  | item :: rest => and_then (check i item) (for_each check (S i) rest)
  end.

Definition check_position (i : nat) (pos : json) : verdict :=
  match pos with
  | JObj d =>
      match first_missing ["ticker"; "quantity"; "purchase_price"] d with
      | Some field =>
          Returns (Some ("Position at index " +:+ pretty i
                         +:+ " missing field: " +:+ field))
      | None =>
          subscript d "ticker" (fun t =>
          if negb (is_str t) then
            Returns (Some ("Position at index " +:+ pretty i
                           +:+ ": ticker must be a string"))
          else
            subscript d "quantity" (fun q =>
            subscript d "purchase_price" (fun pp =>
            try_coerce (py_float q) (py_float pp)
              ("Position at index " +:+ pretty i
               +:+ ": quantity and purchase_price must be numeric"))))
      end
  | _ => Returns (Some ("Position at index " +:+ pretty i
                        +:+ " must be an object"))
  end.

Definition check_summary_item (i : nat) (item : json) : verdict :=
  match item with
  | JObj d =>
      match d !! "ticker", d !! "current_price" with
      | Some t, Some price =>
          if negb (is_str t) then
            Returns (Some ("Market Summary at index " +:+ pretty i
                           +:+ ": ticker must be a string"))
          else
            try_coerce (py_float price) Coerced
              ("Market Summary at index " +:+ pretty i
               +:+ ": current_price must be numeric")
      | _, _ =>
          Returns (Some ("Market Summary item at index " +:+ pretty i
                         +:+ " missing required fields"))
      end
  | _ => Returns (Some ("Market Summary item at index " +:+ pretty i
                        +:+ " must be an object"))
  end.

Definition check_history_item (i : nat) (item : json) : verdict :=
  match item with
  | JObj d =>
      match first_missing ["ticker"; "price"; "day"] d with
      | Some field =>
          Returns (Some ("market_history item at index " +:+ pretty i
                         +:+ " missing field: " +:+ field))
      | None =>
          subscript d "ticker" (fun t =>
          if negb (is_str t) then
            Returns (Some ("market_history at index " +:+ pretty i
                           +:+ ": ticker must be a string"))
          else
            subscript d "price" (fun price =>
            subscript d "day" (fun dy =>
            try_coerce (py_float price) (py_int dy)
              ("market_history at index " +:+ pretty i
               +:+ ": price must be numeric and day must be an integer"))))
      end
  | _ => Returns (Some ("market_history item at index " +:+ pretty i
                        +:+ " must be an object"))
  end.

Definition validate_tick_payload (payload : json) : outcome (bool * string) :=
  let checks : verdict :=
    match payload with
    | JObj d =>
        match first_missing ["Positions"; "Market_Summary"; "market_history"] d with
        | Some key => Returns (Some ("Missing required field: " +:+ key))
        | None =>
            and_then
              (subscript d "Positions" (fun positions =>
               match positions with
               | JArr [] => Returns (Some "Positions must be a non-empty list")
               | JArr items => for_each check_position 0 items
               | _ => Returns (Some "Positions must be a list")
               end))
            (and_then
              (subscript d "Market_Summary" (fun market_summary =>
               match market_summary with
               | JArr [] => Returns (Some "Market Summary must be a non-empty list")
               | JArr items => for_each check_summary_item 0 items
               | _ => Returns (Some "Market Summary must be a list")
               end))
              (subscript d "market_history" (fun history =>
               match history with
               | JArr items => for_each check_history_item 0 items
               | _ => Returns (Some "market_history must be a list")
               end)))
        end
    | _ => Returns (Some "Payload must be a JSON object")
    end in
  match checks with
  | Returns None => Returns (true, "")
  | Returns (Some msg) => Returns (false, msg)
  | Raises e => Raises e
  end.

End WithBuiltins.

(** The decoded form of the typed records. *)
Section Encoding.
Context `{PyNumber}.

Definition position_to_json (p : Position) : json :=
  JObj (<["ticker" := JStr (ticker p)]>
       (<["quantity" := JNum (quantity p)]>
       (<["purchase_price" := JNum (purchase_price p)]>
       (<["current_price" := JNum (current_price p)]>
       (<["unrealized_pnl" := JNum (unrealized_pnl p)]> ∅))))).

Definition summary_item_to_json (item : MarketSummaryItem) : json :=
  JObj (<["ticker" := JStr (ms_ticker item)]>
       (<["current_price" := JNum (ms_current_price item)]> ∅)).

(** A body with the three required keys and an empty [market_history]. *)
Definition body_without_history (positions : list Position)
    (market_summary : list MarketSummaryItem) : json :=
  JObj (<["Positions" := JArr (map position_to_json positions)]>
       (<["Market_Summary" := JArr (map summary_item_to_json market_summary)]>
       (<["market_history" := JArr []]> ∅))).

End Encoding.
End validators.

(** ** ai_module.py *)

Module ai_module.
Section WithNumbers.
Context `{PyNumber} `{PyDay}.

(** One recommended trade: [{action, ticker, quantity}]. *)
Record Decision : Type := {
  action : string;
  d_ticker : string;
  d_quantity : Z
}.

(** The dictionary app.py hands to the recommendation step. *)
Record NormalizedData : Type := {
  POSITIONS : list Position;
  DAY : day;
  nd_Market_Summary : list MarketSummaryItem;
  nd_market_history : list HistoryPoint
}.

(** The decoded body the mothership answers with: the keys [error] and
    [Positions], each of which may be absent. *)
Record MothershipResponse : Type := {
  mr_error : option string;
  mr_Positions : option (list Position)
}.

(** What happens inside the [try] block of [get_chatgpt_recommendation]:
    any exception, an answer without tool call, or a tool call whose
    arguments may carry [trades]. *)
Inductive ChatReply : Type :=
  | ChatException (e : string)
  | ChatNoToolCall
  | ChatToolCall (trades : option (list Decision)).

(** What happens inside the [try] block of [post_trade_to_mothership]. *)
Inductive MothershipReply : Type :=
  | RequestException (e : string)
  | OtherException (e : string)
  | JsonBody (body : MothershipResponse).

(** A request sent to an outside service. *)
Inductive Call : Type :=
  | ChatCompletion (tick_data : NormalizedData)
  | MakeTrade (trade_id : string) (trades : list Decision).

(** The part of the process environment the module reads, and the requests
    it has sent so far. *)
Record Env : Type := {
  OPENAI_API_KEY : option string;
  MOTHERSHIP_API_KEY : option string;
  calls : list Call
}.

(** The two outside services. *)
Variable chat_completions : NormalizedData -> ChatReply.
Variable make_trade : string -> list Decision -> MothershipReply.

(** [not api_key] for the value of [os.getenv]. *)
Definition key_missing (api_key : option string) : bool :=
  match api_key with
  | None => true
  | Some k => String.eqb k ""
  end.

Definition send (c : Call) : Prog Env unit :=
  modify (fun env => {| OPENAI_API_KEY := OPENAI_API_KEY env;
                        MOTHERSHIP_API_KEY := MOTHERSHIP_API_KEY env;
                        calls := calls env ++ [c] |}).

Definition get_chatgpt_recommendation (tick_data : NormalizedData)
    : Prog Env (list Decision) :=
  let! api_key := gets OPENAI_API_KEY in
  if key_missing api_key then
    raise "OPENAI_API_KEY not found in .env file"
  else
    do! send (ChatCompletion tick_data) in
    match chat_completions tick_data with
    | ChatToolCall (Some trades) => ret trades
    | ChatToolCall None => ret []
    | ChatNoToolCall => ret []
    | ChatException _ => ret []
    end.

Definition post_trade_to_mothership (trade_id : string)
    (trades : list Decision) : Prog Env MothershipResponse :=
  let! api_key := gets MOTHERSHIP_API_KEY in
  if key_missing api_key then
    raise "MOTHERSHIP_API_KEY not found in .env file"
  else
    do! send (MakeTrade trade_id trades) in
    match make_trade trade_id trades with
    | JsonBody body => ret body
    | RequestException e => ret {| mr_error := Some e; mr_Positions := None |}
    | OtherException e => raise e
    end.

Definition process_tick_with_ai (tick_data : NormalizedData)
    (trade_id : string) : Prog Env (list Decision * MothershipResponse) :=
  let! recommendations := get_chatgpt_recommendation tick_data in
  match recommendations with
  | [] =>
      ret ([], {| mr_error := Some "No recommendations received from AI";
                  mr_Positions := None |})
  | _ =>
      let! result := post_trade_to_mothership trade_id recommendations in
      ret (recommendations, result)
  end.

End WithNumbers.
End ai_module.

(** ** app.py *)

Module app.
Import ai_module.
Section WithNumbers.
Context `{PyNumber} `{PyDay}.

Record LogEntry : Type := {
  trade_id : string;
  timestamp : string;
  log_day : day;
  recommendations : list Decision;
  positions_before : list Position;
  positions_after : list Position;
  log_unrealized_pnl : num;
  mothership_response : MothershipResponse
}.

(** The two files next to the application ([None]: the file does not
    exist), the environment of ai_module, and the clock. *)
Record World : Type := {
  POSITIONS_FILE : option (list Position);
  TRADING_LOG_FILE : option (list LogEntry);
  env : Env;
  now_isoformat : string;
  now_date : day
}.

(** The body of an HTTP answer and its status code. *)
Inductive ResponseBody : Type :=
  | Failure (error : string)
  | Success (unrealized_pnl : num) (total_positions : nat) (d : day)
            (decisions : list Decision).

Record Response : Type := {
  body : ResponseBody;
  status : Z
}.

(** What [request.get_json(force=True)] yields. *)
Inductive RequestBody : Type :=
  | NotJson
  | Json (tick_data : Payload).

Variable chat_completions : NormalizedData -> ChatReply.
Variable make_trade : string -> list Decision -> MothershipReply.

Definition save_positions (positions : list Position) : Prog World unit :=
  modify (fun w => {| POSITIONS_FILE := Some positions;
                      TRADING_LOG_FILE := TRADING_LOG_FILE w;
                      env := env w;
                      now_isoformat := now_isoformat w;
                      now_date := now_date w |}).

Definition load_positions : Prog World (list Position) :=
  gets (fun w => match POSITIONS_FILE w with
                 | Some positions => positions
                 | None => []
                 end).

Definition load_trading_log : Prog World (list LogEntry) :=
  gets (fun w => match TRADING_LOG_FILE w with
                 | Some log => log
                 | None => []
                 end).

Definition save_trading_log (log : list LogEntry) : Prog World unit :=
  modify (fun w => {| POSITIONS_FILE := POSITIONS_FILE w;
                      TRADING_LOG_FILE := Some log;
                      env := env w;
                      now_isoformat := now_isoformat w;
                      now_date := now_date w |}).

Definition calculate_unrealized_pnl (positions : list Position)
    (market_summary : list MarketSummaryItem) : num :=
  let current_prices := price_lookup market_summary in
  fold_left
    (fun total_pnl position =>
       let qty := to_float (quantity position) in
       let bought := to_float (purchase_price position) in
       match current_prices !! ticker position with
       | Some price => add total_pnl (mul (sub price bought) qty)
       | None => total_pnl
       end)
    positions zero.

(** Runs a program of ai_module on the environment held in the world. *)
Definition in_env {A} (c : Prog Env A) : Prog World A :=
  fun w =>
    let '(r, e) := c (env w) in
    (r, {| POSITIONS_FILE := POSITIONS_FILE w;
           TRADING_LOG_FILE := TRADING_LOG_FILE w;
           env := e;
           now_isoformat := now_isoformat w;
           now_date := now_date w |}).

(** [not tick_data]: the decoded object has no key at all. *)
Definition no_data (tick_data : Payload) : bool :=
  match Positions tick_data, Market_Summary tick_data,
        market_history tick_data with
  | None, None, None => true
  | _, _, _ => false
  end.

(** [not x] for a value read with [tick_data.get]. *)
Definition falsy {A} (x : option (list A)) : bool :=
  match x with
  | None | Some [] => true
  | Some (_ :: _) => false
  end.

Definition failure (code : Z) (error : string) : Response :=
  {| body := Failure error; status := code |}.

Definition tick (tid : string) (request : RequestBody) : Prog World Response :=
  match request with
  | NotJson => ret (failure 400 "Invalid JSON data")
  | Json tick_data =>
    if no_data tick_data then ret (failure 400 "No data provided")
    else
    try_except
      (if falsy (Positions tick_data) then
         ret (failure 400 "Missing Positions field")
       else if falsy (Market_Summary tick_data) then
         ret (failure 400 "Missing Market_Summary field")
       else if falsy (market_history tick_data) then
         ret (failure 400 "Missing market_history field")
       else
         let positions := default [] (Positions tick_data) in
         let market_summary := default [] (Market_Summary tick_data) in
         let history := default [] (market_history tick_data) in
         let! d :=
           match last history with
           | Some row => ret (h_day row)
           | None => gets now_date
           end in
         do! save_positions positions in
         let normalized_data :=
           {| POSITIONS := positions;
              DAY := d;
              nd_Market_Summary := market_summary;
              nd_market_history := history |} in
         let! answer :=
           in_env (process_tick_with_ai chat_completions make_trade
                     normalized_data tid) in
         let '(recs, response) := answer in
         let! updated_positions :=
           match mr_error response with
           | Some _ => ret positions
           | None =>
               match mr_Positions response with
               | Some fresh => do! save_positions fresh in ret fresh
               | None => ret positions
               end
           end in
         let pnl := calculate_unrealized_pnl positions market_summary in
         let! trading_log := load_trading_log in
         let! stamp := gets now_isoformat in
         let log_entry :=
           {| trade_id := tid;
              timestamp := stamp;
              log_day := d;
              recommendations := recs;
              positions_before := positions;
              positions_after := updated_positions;
              log_unrealized_pnl := pnl;
              mothership_response := response |} in
         do! save_trading_log (trading_log ++ [log_entry]) in
         ret {| body := Success pnl (length positions) d recs;
                status := 200 |})
      (fun e => ret (failure 500 e))
  end.

End WithNumbers.
End app.

(** ** app.py: the key check in front of the routes *)

Module app_auth.
Section WithState.
Context {S : Type} `{PyNumber} `{PyDay}.

(** [require_api_key]: [API_KEY] is what [os.getenv("API_KEY")] gave when
    the module was loaded, [provided_key] the [apikey] header of the
    request, [f] the decorated handler. *)
Definition require_api_key (API_KEY provided_key : option string)
    (f : Prog S app.Response) : Prog S app.Response :=
  if ai_module.key_missing API_KEY then
    ret (app.failure 500 "Server API key not configured")
  else if negb (bool_decide (provided_key = API_KEY)) then
    ret (app.failure 401 "Invalid API key")
  else f.

End WithState.
End app_auth.

(** * Vocabulary of the properties

    Names for the states, records and predicates the statements below talk
    about; each is read off the sources or, where said so, off the wording
    of the specification. *)

(** ** The position ledger of business.py *)

Section LedgerVocabulary.
Context {N : PyNumber}.
Import business.

(** The position [update_current_positions] leaves in place of a matched
    position [p] when the tick carries [new_price]. *)
Definition repriced (new_price : num) (p : Position) : Position :=
  {| ticker := ticker p;
     quantity := quantity p;
     purchase_price := purchase_price p;
     current_price := new_price;
     unrealized_pnl :=
       round2 (mul (sub new_price (purchase_price p)) (quantity p)) |}.

(** The position appended for a ticker seen for the first time. *)
Definition opened (td : TickData) : Position :=
  {| ticker := tick_ticker td;
     quantity := tick_quantity td;
     purchase_price := tick_purchase_price td;
     current_price := tick_price td;
     unrealized_pnl := zero |}.

(** The ledger a state of the files stands for. *)
Definition ledger (fs : Files) : list Position :=
  load_json_file (POSITIONS_FILE fs).

Definition history (fs : Files) : list Transaction :=
  load_json_file (HISTORY_FILE fs).

(** Whether some position of the ledger carries the ticker. *)
Definition held (tkr : string) (positions : list Position) : bool :=
  existsb (fun p => String.eqb (ticker p) tkr) positions.

Definition with_positions (fs : Files) (positions : list Position) : Files :=
  {| POSITIONS_FILE := Some positions;
     HISTORY_FILE := HISTORY_FILE fs;
     today := today fs |}.

Definition with_history (fs : Files) (log : list Transaction) : Files :=
  {| POSITIONS_FILE := POSITIONS_FILE fs;
     HISTORY_FILE := Some log;
     today := today fs |}.

(** The record [execute_trading_strategy] hands to [log_transaction]. *)
Definition logged (fs : business.Files) (td : business.TickData)
    (action note : string) (qty : option num) : business.Transaction :=
  {| business.tx_date := business.today fs;
     business.tx_ticker := business.tick_ticker td;
     business.tx_action := action;
     business.tx_price := round2 (business.tick_price td);
     business.tx_note := note;
     business.tx_quantity := qty |}.

(** Idempotence as the specification words it: the second of two
    identical upserts leaves the stored positions as the first left them. *)
Definition same_after_both
    (td : business.TickData) (fs : business.Files) : Prop :=
  let fs1 := snd (business.update_current_positions td fs) in
  let fs2 := snd (business.update_current_positions td fs1) in
  ledger fs2 = ledger fs1.

End LedgerVocabulary.

(** ** The ledger under both of its operations *)

Section StepVocabulary.
Context {N : PyNumber} {D : PyDay}.

(** The positions a state of app.py's files stands for. *)
Definition app_ledger (w : app.World) : list Position :=
  match app.POSITIONS_FILE w with
  | Some positions => positions
  | None => []
  end.

(** One operation on the ledger: an upsert ([update_current_positions]) or
    a bulk replace ([save_positions]) by a list that is [admissible]. *)
Inductive ledger_step (admissible : list Position -> Prop)
    : list Position -> list Position -> Prop :=
  | upsert_step (td : business.TickData) (fs fs' : business.Files)
      (r : outcome (option num)) :
      business.update_current_positions td fs = (r, fs') ->
      ledger_step admissible (ledger fs) (ledger fs')
  | bulk_replace_step (positions : list Position) (w w' : app.World)
      (r : outcome unit) :
      admissible positions ->
      app.save_positions positions w = (r, w') ->
      ledger_step admissible (app_ledger w) (app_ledger w').

Definition one_per_ticker (positions : list Position) : Prop :=
  NoDup (map ticker positions).

(** [unrealized_pnl = round((current_price - purchase_price) * quantity, 2)] *)
Definition pnl_exact (p : Position) : Prop :=
  unrealized_pnl p
    = round2 (mul (sub (current_price p) (purchase_price p)) (quantity p)).

(** The invariant of the data model, as the specification words it. *)
Definition ledger_invariant (positions : list Position) : Prop :=
  one_per_ticker positions /\ Forall pnl_exact positions.

(** The unrealized P&L is the rounded product, or still the 0 stored when
    the position was opened. *)
Definition pnl_exact_or_zero (p : Position) : Prop :=
  pnl_exact p \/ unrealized_pnl p = zero.

Definition ledger_invariant_or_zero (positions : list Position) : Prop :=
  one_per_ticker positions /\ Forall pnl_exact_or_zero positions.

End StepVocabulary.

(** ** Unrealized P&L *)

Section PnLVocabulary.
Context {N : PyNumber}.

(** The position's ticker has a price in the mapping. *)
Definition quoted (prices : gmap string num) (p : Position) : Prop :=
  is_Some (prices !! ticker p).

(** [(current_price - purchase_price) * quantity] for a quoted position. *)
Definition position_pnl (prices : gmap string num) (p : Position) : num :=
  match prices !! ticker p with
  | Some price =>
      mul (sub price (to_float (purchase_price p))) (to_float (quantity p))
  | None => zero
  end.

(** The P&L as the specification words it: the terms of the quoted
    positions, added up from [0.0] in the order of the list. *)
Definition pnl_of_quoted (prices : gmap string num)
    (positions : list Position) : num :=
  fold_left add (map (position_pnl prices) (filter (quoted prices) positions))
            zero.

End PnLVocabulary.

(** ** The moving-average rule *)

Section CrossoverVocabulary.
Context {N : PyNumber} {D : PyDay}.
Import strategy_rules.

(** The prices the rule looks at: those of the rows, by ascending day. *)
Definition prices_by_day (history_rows : list HistoryPoint) : list num :=
  map (fun r => to_float (h_price r)) (sorted history_rows).

(** The long average of the specification: over the last five prices when
    there are five, over all of them otherwise. *)
Definition long_average (prices : list num) : num :=
  if (5 <=? length prices)%nat then SMA 5 prices else mean prices.

End CrossoverVocabulary.

(** ** The tick pipeline of app.py *)

Section PipelineVocabulary.
Context {N : PyNumber} {D : PyDay}.
Import ai_module app.

Definition trading_log (w : World) : list LogEntry :=
  match TRADING_LOG_FILE w with
  | Some log => log
  | None => []
  end.

(** The day a tick is filed under: that of the last history row. *)
Definition tick_day (history : list HistoryPoint) (w : World) : day :=
  match last history with
  | Some row => h_day row
  | None => now_date w
  end.

Definition normalized (positions : list Position)
    (market_summary : list MarketSummaryItem)
    (history : list HistoryPoint) (w : World) : NormalizedData :=
  {| POSITIONS := positions;
     DAY := tick_day history w;
     nd_Market_Summary := market_summary;
     nd_market_history := history |}.

(** The positions the tick ends with, given the mothership's answer. *)
Definition adopted (positions : list Position)
    (response : MothershipResponse) : list Position :=
  match mr_error response with
  | Some _ => positions
  | None =>
      match mr_Positions response with
      | Some fresh => fresh
      | None => positions
      end
  end.

(** The entry the tick appends to the trading log. *)
Definition audit_entry (tid : string) (positions : list Position)
    (market_summary : list MarketSummaryItem) (history : list HistoryPoint)
    (w : World) (recs : list Decision) (response : MothershipResponse)
    : LogEntry :=
  {| trade_id := tid;
     timestamp := now_isoformat w;
     log_day := tick_day history w;
     recommendations := recs;
     positions_before := positions;
     positions_after := adopted positions response;
     log_unrealized_pnl := calculate_unrealized_pnl positions market_summary;
     mothership_response := response |}.

(** The environment once a request has been sent. *)
Definition sent (e : Env) (c : Call) : Env :=
  {| OPENAI_API_KEY := OPENAI_API_KEY e;
     MOTHERSHIP_API_KEY := MOTHERSHIP_API_KEY e;
     calls := calls e ++ [c] |}.

(** The answer [process_tick_with_ai] makes up when there is nothing to
    send to the mothership. *)
Definition no_recommendations : MothershipResponse :=
  {| mr_error := Some "No recommendations received from AI";
     mr_Positions := None |}.


End PipelineVocabulary.

(** * Further vocabulary *)

(** ** Well-formed bodies, read off validators.py *)

Section ValidationVocabulary.
Context {N : PyNumber}.

Variable py_float : json -> coercion.
Variable py_int : json -> coercion.

Definition coerced (c : coercion) : bool :=
  match c with
  | Coerced => true
  | _ => false
  end.

(** An object with a string [ticker] and float-coercible [quantity] and
    [purchase_price]. *)
Definition position_ok (pos : json) : bool :=
  match pos with
  | JObj d =>
      match d !! "ticker", d !! "quantity", d !! "purchase_price" with
      | Some (JStr _), Some q, Some pp =>
          coerced (py_float q) && coerced (py_float pp)
      | _, _, _ => false
      end
  | _ => false
  end.

(** An object with a string [ticker] and a float-coercible
    [current_price]. *)
Definition summary_item_ok (item : json) : bool :=
  match item with
  | JObj d =>
      match d !! "ticker", d !! "current_price" with
      | Some (JStr _), Some price => coerced (py_float price)
      | _, _ => false
      end
  | _ => false
  end.

(** An object with a string [ticker], a float-coercible [price] and an
    int-coercible [day]. *)
Definition history_item_ok (item : json) : bool :=
  match item with
  | JObj d =>
      match d !! "ticker", d !! "price", d !! "day" with
      | Some (JStr _), Some price, Some dy =>
          coerced (py_float price) && coerced (py_int dy)
      | _, _, _ => false
      end
  | _ => false
  end.

(** An object whose [Positions] and [Market_Summary] are non-empty lists
    and whose [market_history] is a list, all of well-formed items. *)
Definition well_formed (payload : json) : bool :=
  match payload with
  | JObj d =>
      match d !! "Positions", d !! "Market_Summary", d !! "market_history" with
      | Some (JArr (p :: ps)), Some (JArr (m :: ms)), Some (JArr hs) =>
          forallb position_ok (p :: ps)
          && forallb summary_item_ok (m :: ms)
          && forallb history_item_ok hs
      | _, _, _ => false
      end
  | _ => false
  end.

End ValidationVocabulary.

(** ** Reading the ledger of business.py *)

Section LedgerReading.
Context {N : PyNumber}.

(** The position the loop of [update_current_positions] stops at: the
    first one that carries the ticker. *)
Definition position_of (tkr : string) (positions : list Position)
    : option Position :=
  List.find (fun p => String.eqb (ticker p) tkr) positions.

(** The price the ledger holds for a ticker. *)
Definition quote_of (tkr : string) (positions : list Position) : option num :=
  current_price <$> position_of tkr positions.

End LedgerReading.

(** ** Reading the market summary *)

Section SummaryReading.
Context {N : PyNumber}.

(** The last item of the summary that carries the ticker. *)
Definition last_quote (t : string) (market_summary : list MarketSummaryItem)
    : option MarketSummaryItem :=
  last (filter (fun item => ms_ticker item = t) market_summary).

(** Two positions with the same ticker, quantity and purchase price. *)
Definition same_holding (p q : Position) : Prop :=
  ticker p = ticker q /\ quantity p = quantity q /\
  purchase_price p = purchase_price q.

End SummaryReading.

(** ** Outcomes of a tick in app.py *)

Section TickVocabulary.
Context {N : PyNumber} {D : PyDay}.
Import ai_module app.

(** The request passes the field checks at the top of [tick]: a JSON
    object whose three lists are present and non-empty. *)
Definition accepted (request : RequestBody) : bool :=
  match request with
  | NotJson => false
  | Json td =>
      negb (falsy (Positions td)) && negb (falsy (Market_Summary td))
      && negb (falsy (market_history td))
  end.

(** The trades [get_chatgpt_recommendation] reads out of a reply. *)
Definition recommended (reply : ChatReply) : list Decision :=
  match reply with
  | ChatToolCall (Some trades) => trades
  | _ => []
  end.

(** The world after the positions of the payload were saved and nothing
    else was written. *)
Definition saved (w : World) (positions : list Position) (e : Env) : World :=
  {| POSITIONS_FILE := Some positions;
     TRADING_LOG_FILE := TRADING_LOG_FILE w;
     env := e;
     now_isoformat := now_isoformat w;
     now_date := now_date w |}.

(** The world after a tick ran to its end. *)
Definition finished (w : World) (tid : string) (positions : list Position)
    (market_summary : list MarketSummaryItem) (history : list HistoryPoint)
    (recs : list Decision) (response : MothershipResponse) (e : Env) : World :=
  {| POSITIONS_FILE := Some (adopted positions response);
     TRADING_LOG_FILE :=
       Some (trading_log w
             ++ [audit_entry tid positions market_summary history w
                   recs response]);
     env := e;
     now_isoformat := now_isoformat w;
     now_date := now_date w |}.

(** The answer of a tick that ran to its end. *)
Definition success (w : World) (positions : list Position)
    (market_summary : list MarketSummaryItem) (history : list HistoryPoint)
    (recs : list Decision) : Response :=
  {| body := Success (calculate_unrealized_pnl positions market_summary)
                     (length positions) (tick_day history w) recs;
     status := 200 |}.

(** What [post_trade_to_mothership] returns for a reply it does not let
    escape. *)
Definition returned (reply : MothershipReply) : option MothershipResponse :=
  match reply with
  | JsonBody body => Some body
  | RequestException e => Some {| mr_error := Some e; mr_Positions := None |}
  | OtherException _ => None
  end.

End TickVocabulary.

(** * The exact instance and concrete data for runs in it *)

(** ** Exact numbers: rationals extended with not-a-number *)

Inductive qnum : Type :=
  | Fin (q : Q)
  | NaN.

Definition qnum_lift2 (f : Q -> Q -> Q) (x y : qnum) : qnum :=
  match x, y with
  | Fin a, Fin b => Fin (Qred (f a b))
  | _, _ => NaN
  end.

Definition qnum_gtb (x y : qnum) : bool :=
  match x, y with
  | Fin a, Fin b => negb (Qle_bool a b)
  | _, _ => false
  end.

Definition qnum_ltb (x y : qnum) : bool :=
  match x, y with
  | Fin a, Fin b => negb (Qle_bool b a)
  | _, _ => false
  end.

Definition qnum_neb (x y : qnum) : bool :=
  match x, y with
  | Fin a, Fin b => negb (Qeq_bool a b)
  | _, _ => true
  end.

(** Nearest integer, ties to the even neighbour. *)
Definition round_half_even (q : Q) : Z :=
  let f := Qfloor q in
  match Qcompare (q - inject_Z f) (1 # 2) with
  | Lt => f
  | Gt => (f + 1)%Z
  | Eq => if Z.even f then f else (f + 1)%Z
  end.

Definition qnum_round2 (x : qnum) : qnum :=
  match x with
  | Fin q => Fin (Qred (inject_Z (round_half_even (q * 100)) / 100))
  | NaN => NaN
  end.

Definition qnum_sum (l : list qnum) : qnum :=
  fold_left (qnum_lift2 Qplus) l (Fin 0).

Definition qnum_mean (l : list qnum) : qnum :=
  match l with
  | [] => NaN
  | _ => qnum_lift2 Qdiv (qnum_sum l) (Fin (inject_Z (Z.of_nat (length l))))
  end.

Lemma qnum_gtb_irrefl x : qnum_gtb x x = false.
Proof.
  destruct x as [a|]; simpl; [|reflexivity].
  apply negb_false_iff, Qle_bool_iff, Qle_refl.
Qed.

Lemma qnum_gtb_ordered x y :
  qnum_gtb x y = true -> qnum_neb x x = false /\ qnum_neb y y = false.
Proof.
  destruct x as [a|], y as [b|]; simpl; try discriminate.
  intros _; split; apply negb_false_iff, Qeq_bool_iff, Qeq_refl.
Qed.

Lemma qnum_ltb_ordered x y :
  qnum_ltb x y = true -> qnum_neb x x = false /\ qnum_neb y y = false.
Proof.
  destruct x as [a|], y as [b|]; simpl; try discriminate.
  intros _; split; apply negb_false_iff, Qeq_bool_iff, Qeq_refl.
Qed.

Lemma qnum_gtb_not_ltb x y : qnum_gtb x y = true -> qnum_ltb x y = false.
Proof.
  destruct x as [a|], y as [b|]; simpl; try discriminate.
  intros Hgt. apply negb_true_iff in Hgt.
  apply negb_false_iff, Qle_bool_iff.
  destruct (Qlt_le_dec b a) as [Hlt|Hle].
  - apply Qlt_le_weak, Hlt.
  - apply Qle_bool_iff in Hle. congruence.
Qed.

Lemma qnum_eq_not_ordered x y :
  qnum_neb x y = false -> qnum_gtb x y = false /\ qnum_ltb x y = false.
Proof.
  destruct x as [a|], y as [b|]; simpl; try discriminate.
  intros Heq. apply negb_false_iff, Qeq_bool_iff in Heq.
  split; apply negb_false_iff, Qle_bool_iff; rewrite Heq; apply Qle_refl.
Qed.

Definition QNumber : PyNumber := {|
  num := qnum;
  zero := Fin 0;
  nan := NaN;
  add := qnum_lift2 Qplus;
  sub := qnum_lift2 Qminus;
  mul := qnum_lift2 Qmult;
  gtb := qnum_gtb;
  ltb := qnum_ltb;
  neb := qnum_neb;
  round2 := qnum_round2;
  to_float := fun x => x;
  mean := qnum_mean;
  gtb_irrefl := qnum_gtb_irrefl;
  gtb_ordered := qnum_gtb_ordered;
  ltb_ordered := qnum_ltb_ordered;
  gtb_not_ltb := qnum_gtb_not_ltb;
  eq_not_ordered := qnum_eq_not_ordered
|}.

(** A Python integer literal read in the exact instance. *)
Definition qz (z : Z) : @num QNumber := Fin (inject_Z z).

(** Days counted as integers. *)
Definition ZDay : PyDay := {| day := Z; day_ltb := Z.ltb |}.

(** ** Inputs *)

Definition no_files : @business.Files QNumber :=
  {| business.POSITIONS_FILE := None;
     business.HISTORY_FILE := None;
     business.today := "2024-01-02" |}.

(** The tick [{ticker: "X", price: 10, quantity: 2, purchase_price: 5}]. *)
Definition tick_X_10 : @business.TickData QNumber :=
  {| business.tick_ticker := "X";
     business.tick_price := qz 10;
     business.tick_quantity := qz 2;
     business.tick_purchase_price := qz 5 |}.

(** The same ticker at price 12. *)
Definition tick_X_12 : @business.TickData QNumber :=
  {| business.tick_ticker := "X";
     business.tick_price := qz 12;
     business.tick_quantity := qz 2;
     business.tick_purchase_price := qz 5 |}.

(** The files after [tick_X_10] has been taken in once. *)
Definition files_with_X : @business.Files QNumber :=
  snd (business.update_current_positions tick_X_10 no_files).

(** The position [{ticker: "A", quantity: 10, purchase_price: 5}]. *)
Definition position_A : @Position QNumber :=
  {| ticker := "A"; quantity := qz 10; purchase_price := qz 5;
     current_price := qz 5; unrealized_pnl := qz 0 |}.

(** A position whose ticker the summary below does not quote. *)
Definition position_B : @Position QNumber :=
  {| ticker := "B"; quantity := qz 4; purchase_price := qz 7;
     current_price := qz 7; unrealized_pnl := qz 0 |}.

(** The summary [[{ticker: "A", current_price: 8}]]. *)
Definition summary_A_8 : list (@MarketSummaryItem QNumber) :=
  [{| ms_ticker := "A"; ms_current_price := qz 8 |}].

Definition payload_of (positions : list (@Position QNumber))
    (market_summary : list (@MarketSummaryItem QNumber))
    (history : list (@HistoryPoint QNumber ZDay)) : @Payload QNumber ZDay :=
  {| Positions := Some positions;
     Market_Summary := Some market_summary;
     market_history := Some history |}.

Definition history_of (prices : list Z) : list (@HistoryPoint QNumber ZDay) :=
  imap (fun i price =>
          @Build_HistoryPoint QNumber ZDay "T" (qz price) (Z.of_nat i))
       prices.

Definition env_0 : @ai_module.Env QNumber ZDay :=
  {| ai_module.OPENAI_API_KEY := Some "sk-test";
     ai_module.MOTHERSHIP_API_KEY := Some "ms-test";
     ai_module.calls := [] |}.

Definition world_0 : @app.World QNumber ZDay :=
  {| app.POSITIONS_FILE := None;
     app.TRADING_LOG_FILE := None;
     app.env := env_0;
     app.now_isoformat := "2024-01-02T09:30:00";
     app.now_date := 0%Z |}.


(** A provider that recommends selling one share of A. *)
Definition sell_A : ai_module.Decision :=
  {| ai_module.action := "SELL";
     ai_module.d_ticker := "A";
     ai_module.d_quantity := 1 |}.

Definition chat_sell_A : @ai_module.NormalizedData QNumber ZDay
                         -> ai_module.ChatReply :=
  fun _ => ai_module.ChatToolCall (Some [sell_A]).

(** A mothership that cannot be reached. *)
Definition mothership_down : string -> list ai_module.Decision
                             -> @ai_module.MothershipReply QNumber :=
  fun _ _ => ai_module.RequestException "503 Server Error".

(** The example payload with three days of history. *)
Definition payload_A : @Payload QNumber ZDay :=
  payload_of [position_A] summary_A_8 (history_of [6; 7; 8]%Z).

(** The example payload with an empty history. *)
Definition payload_A_no_history : @Payload QNumber ZDay :=
  payload_of [position_A] summary_A_8 [].

(** A [float()] that accepts numbers, integers and booleans, and an
    [int()] that accepts integers and booleans. *)
Definition float_of_json (v : @json QNumber) : coercion :=
  match v with
  | JNum _ | JInt _ | JBool _ => Coerced
  | _ => ValueOrTypeError
  end.

Definition int_of_json (v : @json QNumber) : coercion :=
  match v with
  | JInt _ | JBool _ => Coerced
  | _ => ValueOrTypeError
  end.

(** ** Further inputs *)

(** A [float()] that, like Python's, cannot convert an integer of 2^1024
    or more and raises OverflowError, which the validator does not catch. *)
Definition float_overflowing (v : @json QNumber) : coercion :=
  match v with
  | JInt z =>
      if (Z.abs z <? 2 ^ 1024)%Z then Coerced
      else OtherError "OverflowError"
  | JNum _ | JBool _ => Coerced
  | _ => ValueOrTypeError
  end.




(** The decoded object [{key: value, ...}] of a list of pairs. *)
Definition object_of (fields : list (string * @json QNumber)) : @json QNumber :=
  JObj (list_to_map fields).

(** * Properties *)

(** ** The position ledger of business.py *)

Section LedgerFacts.
Context {N : PyNumber}.
Import business.

Lemma ledger_with_positions fs positions :
  ledger (with_positions fs positions) = positions.
Proof. reflexivity. Qed.

Lemma find_and_update_found tkr new_price positions :
  snd (find_and_update tkr new_price positions) = held tkr positions.
Proof.
  induction positions as [|p rest IH]; simpl; [reflexivity|].
  destruct (String.eqb (ticker p) tkr); simpl; [reflexivity|].
  destruct (find_and_update tkr new_price rest) as [[rest' old] found].
  exact IH.
Qed.

Lemma find_and_update_absent tkr new_price positions :
  held tkr positions = false ->
  find_and_update tkr new_price positions = (positions, None, false).
Proof.
  induction positions as [|p rest IH]; simpl; [reflexivity|].
  destruct (String.eqb (ticker p) tkr); simpl; [discriminate|].
  intros Hrest. rewrite (IH Hrest). reflexivity.
Qed.

(** A matched ticker is updated at the first index that carries it. *)
Lemma find_and_update_present tkr new_price positions :
  held tkr positions = true ->
  exists i p,
    positions !! i = Some p /\ ticker p = tkr /\
    (forall j q, (j < i)%nat -> positions !! j = Some q -> ticker q <> tkr) /\
    find_and_update tkr new_price positions
      = (<[i := repriced new_price p]> positions,
         Some (current_price p), true).
Proof.
  induction positions as [|p rest IH]; simpl; [discriminate|].
  destruct (String.eqb (ticker p) tkr) eqn:Hp; simpl.
  - intros _. exists 0%nat, p. apply String.eqb_eq in Hp.
    repeat split; try assumption. intros j q Hj. lia.
  - intros Hrest. destruct (IH Hrest) as (i & q & Hi & Hq & Hfirst & Hrun).
    exists (S i), q. rewrite Hrun. repeat split; try assumption.
    intros [|j] r Hj Hr; simpl in Hr.
    + injection Hr as <-. apply String.eqb_neq, Hp.
    + apply (Hfirst j r); [lia | exact Hr].
Qed.

Lemma update_current_positions_absent td fs :
  held (tick_ticker td) (ledger fs) = false ->
  update_current_positions td fs
    = (Returns (Some (tick_price td)),
       with_positions fs (ledger fs ++ [opened td])).
Proof.
  intros Habsent. unfold update_current_positions, bind, load_positions, gets.
  fold (ledger fs).
  rewrite (find_and_update_absent _ _ _ Habsent). reflexivity.
Qed.

Lemma update_current_positions_present td fs :
  held (tick_ticker td) (ledger fs) = true ->
  exists i p,
    ledger fs !! i = Some p /\ ticker p = tick_ticker td /\
    (forall j q, (j < i)%nat -> ledger fs !! j = Some q ->
                 ticker q <> tick_ticker td) /\
    update_current_positions td fs
      = (Returns (Some (current_price p)),
         with_positions fs (<[i := repriced (tick_price td) p]> (ledger fs))).
Proof.
  intros Hheld.
  destruct (find_and_update_present _ (tick_price td) _ Hheld)
    as (i & p & Hi & Hp & Hfirst & Hrun).
  exists i, p. repeat split; try assumption.
  unfold update_current_positions, bind, load_positions, gets.
  fold (ledger fs). rewrite Hrun. reflexivity.
Qed.

Lemma tickers_insert_repriced new_price i p (positions : list Position) :
  positions !! i = Some p ->
  map ticker (<[i := repriced new_price p]> positions) = map ticker positions.
Proof.
  revert i. induction positions as [|q rest IH]; intros [|i] Hi;
    simpl in *; try discriminate.
  - injection Hi as ->. reflexivity.
  - rewrite (IH i Hi). reflexivity.
Qed.

Lemma held_tickers tkr (positions : list Position) :
  held tkr positions = true <-> In tkr (map ticker positions).
Proof.
  induction positions as [|p rest IH]; simpl.
  - split; [discriminate | tauto].
  - rewrite orb_true_iff, IH, String.eqb_eq. tauto.
Qed.

(** Running the loop again on its own result, with the same ticker and
    price, changes nothing and reads back the price just stored. *)
Lemma find_and_update_again tkr new_price positions :
  held tkr positions = true ->
  find_and_update tkr new_price
      (fst (fst (find_and_update tkr new_price positions)))
    = (fst (fst (find_and_update tkr new_price positions)),
       Some new_price, true).
Proof.
  induction positions as [|p rest IH]; simpl; [discriminate|].
  destruct (String.eqb (ticker p) tkr) eqn:Hp; simpl.
  - intros _. rewrite Hp. reflexivity.
  - intros Hrest. specialize (IH Hrest).
    destruct (find_and_update tkr new_price rest) as [[rest' old] found].
    simpl in *. rewrite Hp, IH. reflexivity.
Qed.

(** The loop reaches a position appended behind a ledger that does not
    hold the ticker. *)
Lemma find_and_update_appended tkr new_price positions p :
  held tkr positions = false -> ticker p = tkr ->
  find_and_update tkr new_price (positions ++ [p])
    = (positions ++ [repriced new_price p], Some (current_price p), true).
Proof.
  intros Habsent Hp.
  induction positions as [|q rest IH]; simpl in *.
  - apply String.eqb_eq in Hp. rewrite Hp. reflexivity.
  - destruct (String.eqb (ticker q) tkr); [discriminate|].
    rewrite (IH Habsent). reflexivity.
Qed.

Lemma update_current_positions_run td fs :
  update_current_positions td fs
    = let '(positions, old_price, position_found) :=
        find_and_update (tick_ticker td) (tick_price td) (ledger fs) in
      if position_found then (Returns old_price, with_positions fs positions)
      else (Returns (Some (tick_price td)),
            with_positions fs (positions ++ [opened td])).
Proof.
  unfold update_current_positions, bind, load_positions, gets.
  fold (ledger fs).
  destruct (find_and_update _ _ _) as [[positions old] found].
  destruct found; reflexivity.
Qed.

End LedgerFacts.

(** C1. For a ticker that is not in the ledger, [update_current_positions]
    appends a position with unrealized_pnl = 0 and returns the price of the
    tick itself (not [None]); handed that value, [execute_trading_strategy]
    finds the price not greater than itself, logs a TICK_UPDATE record and
    answers STAY (not INITIAL). *)
Theorem first_sight_returns_new_price {N : PyNumber}
    (td : business.TickData) (fs : business.Files) :
  held (business.tick_ticker td) (ledger fs) = false ->
  let fs1 := with_positions fs (ledger fs ++ [opened td]) in
  business.update_current_positions td fs
    = (Returns (Some (business.tick_price td)), fs1) /\
  unrealized_pnl (opened td) = zero /\
  business.execute_trading_strategy td (Some (business.tick_price td)) fs1
    = (Returns "STAY",
       with_history fs1
         (history fs1
          ++ [logged fs1 td "TICK_UPDATE" "Price decreased - stay" None])).
Proof.
  intros Habsent fs1.
  split; [apply update_current_positions_absent, Habsent|].
  split; [reflexivity|].
  unfold business.execute_trading_strategy. rewrite gtb_irrefl. reflexivity.
Qed.

Lemma first_sight_returns_new_price_witness :
  held "X" (ledger no_files) = false /\
  business.update_current_positions tick_X_10 no_files
    = (Returns (Some (qz 10)), files_with_X) /\
  fst (business.execute_trading_strategy tick_X_10 (Some (qz 10)) files_with_X)
    = Returns "STAY".
Proof.
  split; [reflexivity|].
  destruct (first_sight_returns_new_price tick_X_10 no_files eq_refl)
    as (Hrun & _ & Hnext).
  split; [exact Hrun|].
  exact (f_equal fst Hnext).
Defined.

(** C2 fails on a first sighting: the position is stored with
    unrealized_pnl = 0 by the first call and with the recomputed value, 10,
    by the second. *)
Lemma upsert_twice_first_sight_differs : ~ same_after_both tick_X_10 no_files.
Proof.
  unfold same_after_both. vm_compute. intros Heq. discriminate Heq.
Qed.

(** C2, amended. Two upserts in a row with the same ticker and price: the
    second call returns that price; when the ticker was in the ledger before
    the first call the ledger is the same after both calls; when it was not,
    the first call appends the position with unrealized_pnl = 0 and the
    second replaces that value by
    round((price - purchase_price) * quantity, 2), all else being equal. *)
Theorem upsert_twice {N : PyNumber}
    (td td' : business.TickData) (fs : business.Files) :
  business.tick_ticker td' = business.tick_ticker td ->
  business.tick_price td' = business.tick_price td ->
  exists (r1 : option num) (fs1 fs2 : business.Files),
    business.update_current_positions td fs = (Returns r1, fs1) /\
    business.update_current_positions td' fs1
      = (Returns (Some (business.tick_price td)), fs2) /\
    (held (business.tick_ticker td) (ledger fs) = true ->
     ledger fs2 = ledger fs1) /\
    (held (business.tick_ticker td) (ledger fs) = false ->
     ledger fs1 = ledger fs ++ [opened td] /\
     ledger fs2
       = ledger fs ++ [repriced (business.tick_price td) (opened td)]).
Proof.
  intros Htkr Hprice.
  destruct (held (business.tick_ticker td) (ledger fs)) eqn:Hheld.
  - pose proof (find_and_update_again _ (business.tick_price td) _ Hheld)
      as Hagain.
    pose proof (find_and_update_found (business.tick_ticker td)
                  (business.tick_price td) (ledger fs)) as Hfound.
    rewrite Hheld in Hfound.
    destruct (business.find_and_update _ _ (ledger fs))
      as [[positions old] found] eqn:Hrun.
    simpl in Hagain, Hfound. subst found.
    exists old, (with_positions fs positions), (with_positions fs positions).
    split; [rewrite update_current_positions_run, Hrun; reflexivity|].
    split.
    + rewrite update_current_positions_run, Htkr, Hprice.
      unfold ledger at 1; simpl. rewrite Hagain. reflexivity.
    + split; [reflexivity | discriminate].
  - exists (Some (business.tick_price td)),
      (with_positions fs (ledger fs ++ [opened td])),
      (with_positions fs
         (ledger fs ++ [repriced (business.tick_price td) (opened td)])).
    split; [apply update_current_positions_absent, Hheld|].
    split.
    + rewrite update_current_positions_run, Htkr, Hprice.
      unfold ledger at 1; simpl.
      rewrite (find_and_update_appended _ _ _ (opened td) Hheld eq_refl).
      reflexivity.
    + split; [discriminate|]. intros _. split; reflexivity.
Qed.

Lemma upsert_twice_witness :
  business.tick_ticker tick_X_10 = business.tick_ticker tick_X_10 /\
  business.tick_price tick_X_10 = business.tick_price tick_X_10 /\
  fst (business.update_current_positions tick_X_10 files_with_X)
    = Returns (Some (qz 10)).
Proof.
  split; [reflexivity|]. split; [reflexivity|].
  destruct (upsert_twice tick_X_10 tick_X_10 no_files eq_refl eq_refl)
    as (r1 & fs1 & fs2 & Hfirst & Hsecond & _).
  unfold files_with_X. rewrite Hfirst. simpl. rewrite Hsecond. reflexivity.
Defined.



(** C10. When the ticker of the tick is already in the ledger,
    [update_current_positions] changes one position only, the first that
    carries the ticker: its current_price becomes the tick's price and its
    unrealized_pnl is recomputed from its own purchase_price and quantity;
    its ticker, quantity and purchase_price stay (those of the tick are not
    used), every other position, the length and the order of the ledger and
    the history file stay as they were; the price returned is the one the
    position had before. *)
Theorem upsert_existing_frame {N : PyNumber}
    (td : business.TickData) (fs : business.Files) :
  held (business.tick_ticker td) (ledger fs) = true ->
  exists (i : nat) (p p' : Position) (fs' : business.Files),
    business.update_current_positions td fs
      = (Returns (Some (current_price p)), fs') /\
    ledger fs !! i = Some p /\
    ticker p = business.tick_ticker td /\
    (forall j q, (j < i)%nat -> ledger fs !! j = Some q ->
                 ticker q <> business.tick_ticker td) /\
    length (ledger fs') = length (ledger fs) /\
    (forall j, j <> i -> ledger fs' !! j = ledger fs !! j) /\
    ledger fs' !! i = Some p' /\
    ticker p' = ticker p /\
    quantity p' = quantity p /\
    purchase_price p' = purchase_price p /\
    current_price p' = business.tick_price td /\
    unrealized_pnl p'
      = round2 (mul (sub (business.tick_price td) (purchase_price p))
                    (quantity p)) /\
    history fs' = history fs.
Proof.
  intros Hheld.
  destruct (update_current_positions_present td fs Hheld)
    as (i & p & Hi & Hp & Hfirst & Hrun).
  exists i, p, (repriced (business.tick_price td) p),
    (with_positions fs (<[i := repriced (business.tick_price td) p]> (ledger fs))).
  split; [exact Hrun|].
  split; [exact Hi|].
  split; [exact Hp|].
  split; [exact Hfirst|].
  unfold ledger at 1 3 5; simpl.
  split; [apply length_insert|].
  split; [intros j Hj; apply list_lookup_insert_ne; congruence|].
  split; [apply list_lookup_insert_eq; eapply lookup_lt_Some, Hi|].
  repeat split.
Qed.

Lemma upsert_existing_frame_witness :
  held (business.tick_ticker tick_X_12) (ledger files_with_X) = true /\
  exists p' : Position,
    ledger (snd (business.update_current_positions tick_X_12 files_with_X))
      = [p'] /\
    quantity p' = qz 2 /\ purchase_price p' = qz 5 /\
    current_price p' = qz 12 /\ unrealized_pnl p' = qz 14.
Proof.
  split; [reflexivity|].
  destruct (upsert_existing_frame tick_X_12 files_with_X eq_refl)
    as (i & p & p' & fs' & Hrun & Hi & _ & _ & Hlen & _ & Hi' & _ &
        Hq & Hpp & Hcp & Hpnl & _).
  exists p'. rewrite Hrun. simpl.
  destruct i as [|i]; [|destruct i; discriminate Hi].
  injection Hi as <-.
  rewrite Hq, Hpp, Hcp, Hpnl.
  destruct (ledger fs') as [|a [|b rest]]; try discriminate Hlen.
  injection Hi' as ->.
  repeat split.
Defined.

(** ** The ledger under both of its operations *)

Section LedgerSteps.
Context {N : PyNumber} {D : PyDay}.

Lemma pnl_exact_repriced new_price p : pnl_exact (repriced new_price p).
Proof. reflexivity. Qed.

Lemma upsert_keeps_invariant td fs r fs' :
  business.update_current_positions td fs = (r, fs') ->
  ledger_invariant_or_zero (ledger fs) ->
  ledger_invariant_or_zero (ledger fs').
Proof.
  intros Hrun [Hone Hpnl].
  destruct (held (business.tick_ticker td) (ledger fs)) eqn:Hheld.
  - destruct (update_current_positions_present td fs Hheld)
      as (i & p & Hi & Hp & _ & Hrun').
    rewrite Hrun' in Hrun. injection Hrun as _ <-.
    rewrite ledger_with_positions. split.
    + unfold one_per_ticker.
      rewrite (tickers_insert_repriced _ _ _ _ Hi). exact Hone.
    + apply Forall_insert; [exact Hpnl|]. left. apply pnl_exact_repriced.
  - rewrite (update_current_positions_absent td fs Hheld) in Hrun.
    injection Hrun as _ <-.
    rewrite ledger_with_positions. split.
    + unfold one_per_ticker. rewrite map_app. simpl.
      apply NoDup_app. split; [exact Hone|]. split.
      * intros t Ht Hin. apply list_elem_of_singleton in Hin. subst t.
        apply list_elem_of_In, held_tickers in Ht. congruence.
      * apply NoDup_singleton.
    + apply Forall_app. split; [exact Hpnl|].
      apply Forall_singleton. right. reflexivity.
Qed.

Lemma step_keeps_invariant l l' :
  ledger_step ledger_invariant_or_zero l l' ->
  ledger_invariant_or_zero l -> ledger_invariant_or_zero l'.
Proof.
  intros Hstep. destruct Hstep as [td fs fs' r Hrun | positions w w' r Hadm Hrun].
  - apply (upsert_keeps_invariant td fs r fs' Hrun).
  - intros _. unfold app.save_positions, modify in Hrun.
    injection Hrun as _ <-. exact Hadm.
Qed.

End LedgerSteps.

(** C6 fails on both counts. Upserts alone: the first upsert of a ticker
    stores unrealized_pnl = 0 whatever the prices are (here
    round((10 - 5) * 2, 2) = 10). Bulk replace: the list is stored as it
    comes, two positions for one ticker included. *)
Lemma ledger_invariant_broken :
  ~ (forall l : list (@Position QNumber),
       rtc (ledger_step (D := ZDay) (fun _ => False)) [] l ->
       ledger_invariant l) /\
  ~ (forall l : list (@Position QNumber),
       rtc (ledger_step (D := ZDay) (fun _ => True)) [] l ->
       ledger_invariant l).
Proof.
  split.
  - intros Hclaim.
    assert (Hreach : rtc (ledger_step (D := ZDay) (fun _ => False)) []
                         (ledger files_with_X)).
    { apply rtc_once.
      exact (upsert_step _ tick_X_10 no_files files_with_X _
               (surjective_pairing _)). }
    destruct (Hclaim _ Hreach) as [_ Hpnl].
    apply Forall_inv in Hpnl. vm_compute in Hpnl. discriminate Hpnl.
  - intros Hclaim.
    assert (Hreach : rtc (ledger_step (D := ZDay) (fun _ => True)) []
                         [position_A; position_A]).
    { apply rtc_once.
      exact (bulk_replace_step _ [position_A; position_A] world_0 _ _ I
               (surjective_pairing _)). }
    destruct (Hclaim _ Hreach) as [Hone _].
    unfold one_per_ticker in Hone. simpl in Hone.
    apply NoDup_cons in Hone. destruct Hone as [Hnotin _].
    apply Hnotin. left.
Qed.

(** C6, amended. Start from a ledger (the empty one, say) that has at most
    one position per ticker and in which every unrealized_pnl is
    round((current_price - purchase_price) * quantity, 2) or 0; apply any
    sequence of upserts and of bulk replaces by lists with the same two
    properties. The ledger reached has at most one position per ticker, and
    every unrealized_pnl in it is
    round((current_price - purchase_price) * quantity, 2), or the 0 the
    upsert stored when it opened the position. *)
Theorem ledger_invariant_preserved {N : PyNumber} {D : PyDay}
    (l0 l : list Position) :
  ledger_invariant_or_zero l0 ->
  rtc (ledger_step ledger_invariant_or_zero) l0 l ->
  ledger_invariant_or_zero l.
Proof.
  intros Hstart Hreach. induction Hreach as [l | l1 l2 l3 Hstep _ IH].
  - exact Hstart.
  - apply IH. exact (step_keeps_invariant l1 l2 Hstep Hstart).
Qed.

Lemma ledger_invariant_preserved_witness :
  ledger_invariant_or_zero (N := QNumber) [] /\
  rtc (ledger_step (N := QNumber) (D := ZDay) ledger_invariant_or_zero) []
      (ledger files_with_X) /\
  ledger_invariant_or_zero (ledger files_with_X).
Proof.
  assert (Hempty : ledger_invariant_or_zero (N := QNumber) []).
  { split; [apply NoDup_nil_2 | apply Forall_nil_2]. }
  assert (Hreach : rtc (ledger_step (N := QNumber) (D := ZDay)
                          ledger_invariant_or_zero) []
                       (ledger files_with_X)).
  { apply rtc_once.
    exact (upsert_step _ tick_X_10 no_files files_with_X _
             (surjective_pairing _)). }
  split; [exact Hempty|]. split; [exact Hreach|].
  exact (ledger_invariant_preserved [] _ Hempty Hreach).
Defined.

(** ** Unrealized P&L *)

Section PnL.
Context {N : PyNumber}.

Lemma pnl_step_fold prices positions (acc : num * nat) :
  fold_left (pnl_step prices) positions acc
    = (fold_left add
         (map (position_pnl prices) (filter (quoted prices) positions))
         (fst acc),
       (snd acc + length (filter (quoted prices) positions))%nat).
Proof.
  revert acc. induction positions as [|p rest IH]; intros [total count].
  - simpl. f_equal. lia.
  - simpl fold_left. rewrite IH. unfold pnl_step.
    destruct (prices !! ticker p) as [price|] eqn:Hp.
    + rewrite filter_cons_True by (unfold quoted; rewrite Hp; eauto).
      assert (Hterm : position_pnl prices p
                = mul (sub price (to_float (purchase_price p)))
                      (to_float (quantity p)))
        by (unfold position_pnl; rewrite Hp; reflexivity).
      simpl. rewrite Hterm. f_equal. lia.
    + rewrite filter_cons_False
        by (unfold quoted; rewrite Hp; intros [x Hx]; discriminate Hx).
      reflexivity.
Qed.

Lemma calculate_unrealized_pnl_fold prices positions (total : num) :
  fold_left
    (fun total_pnl position =>
       match prices !! ticker position with
       | Some price =>
           add total_pnl
               (mul (sub price (to_float (purchase_price position)))
                    (to_float (quantity position)))
       | None => total_pnl
       end) positions total
  = fold_left add
      (map (position_pnl prices) (filter (quoted prices) positions)) total.
Proof.
  revert total. induction positions as [|p rest IH]; intros total.
  - reflexivity.
  - simpl fold_left. rewrite IH.
    destruct (prices !! ticker p) as [price|] eqn:Hp.
    + rewrite filter_cons_True by (unfold quoted; rewrite Hp; eauto).
      assert (Hterm : position_pnl prices p
                = mul (sub price (to_float (purchase_price p)))
                      (to_float (quantity p)))
        by (unfold position_pnl; rewrite Hp; reflexivity).
      simpl. rewrite Hterm. reflexivity.
    + rewrite filter_cons_False
        by (unfold quoted; rewrite Hp; intros [x Hx]; discriminate Hx).
      reflexivity.
Qed.

(** The mapping has a price exactly for the tickers of the summary. *)
Lemma price_lookup_quoted (market_summary : list MarketSummaryItem) (t : string) :
  is_Some (price_lookup market_summary !! t)
  <-> In t (map ms_ticker market_summary).
Proof.
  unfold price_lookup.
  assert (Hgen : forall d : gmap string num,
    is_Some (fold_left
               (fun d item =>
                  <[ms_ticker item := to_float (ms_current_price item)]> d)
               market_summary d !! t)
    <-> is_Some (d !! t) \/ In t (map ms_ticker market_summary)).
  { induction market_summary as [|item rest IH]; intros d; simpl.
    - tauto.
    - rewrite IH. destruct (decide (ms_ticker item = t)) as [->|Hne].
      + rewrite lookup_insert_eq. split; [intros _; right; left; reflexivity|].
        intros _. left. eauto.
      + rewrite lookup_insert_ne by exact Hne. tauto. }
  rewrite Hgen, lookup_empty. split; [intros [[x Hx]|Hin]|]; try tauto.
  discriminate Hx.
Qed.

End PnL.

(** C9. [analyze_tick] and [calculate_unrealized_pnl] add up
    (current_price - purchase_price) * quantity over exactly the positions
    whose ticker is a key of the mapping built from the market summary, that
    is, a ticker of the summary; the other positions are passed over, and
    [positions_evaluated] counts the former only. On the position A
    (quantity 10, bought at 5) quoted at 8 the result is 30, also when an
    unquoted position stands next to it. *)
Theorem pnl_over_quoted_positions :
  (forall (N : PyNumber) (D : PyDay) (payload : Payload),
     let positions := default [] (Positions payload) in
     let prices := price_lookup (default [] (Market_Summary payload)) in
     business.summary_unrealized_pnl (business.summary (business.analyze_tick payload))
       = pnl_of_quoted prices positions /\
     business.positions_evaluated (business.summary (business.analyze_tick payload))
       = length (filter (quoted prices) positions)) /\
  (forall (N : PyNumber) (positions : list Position)
          (market_summary : list MarketSummaryItem),
     app.calculate_unrealized_pnl positions market_summary
       = pnl_of_quoted (price_lookup market_summary) positions) /\
  (forall (N : PyNumber) (market_summary : list MarketSummaryItem)
          (p : Position),
     quoted (price_lookup market_summary) p
     <-> In (ticker p) (map ms_ticker market_summary)) /\
  business.summary (business.analyze_tick (payload_of [position_A] summary_A_8 []))
    = {| business.positions_evaluated := 1;
         business.summary_unrealized_pnl := qz 30 |} /\
  business.summary
      (business.analyze_tick (payload_of [position_B; position_A] summary_A_8 []))
    = {| business.positions_evaluated := 1;
         business.summary_unrealized_pnl := qz 30 |} /\
  app.calculate_unrealized_pnl [position_A] summary_A_8 = qz 30.
Proof.
  split.
  { intros N D payload positions prices.
    unfold business.analyze_tick. simpl.
    fold positions. fold prices. rewrite pnl_step_fold. simpl. split; reflexivity. }
  split.
  { intros N positions market_summary.
    unfold app.calculate_unrealized_pnl. apply calculate_unrealized_pnl_fold. }
  split.
  { intros N market_summary p. apply price_lookup_quoted. }
  split; [vm_compute; reflexivity|].
  split; vm_compute; reflexivity.
Qed.

Lemma pnl_over_quoted_positions_witness :
  In (ticker position_A) (map ms_ticker summary_A_8) /\
  quoted (price_lookup summary_A_8) position_A /\
  ~ quoted (price_lookup summary_A_8) position_B.
Proof.
  destruct pnl_over_quoted_positions as (_ & _ & Hquoted & _).
  assert (HA : In (ticker position_A) (map ms_ticker summary_A_8))
    by (left; reflexivity).
  split; [exact HA|].
  split; [apply Hquoted; exact HA|].
  intros HB. apply Hquoted in HB. simpl in HB.
  destruct HB as [HB|[]]. discriminate HB.
Defined.

(** ** The moving-average rule *)

Section Crossover.
Context {N : PyNumber} {D : PyDay}.
Import strategy_rules.

Lemma insert_row_length r rows : length (insert_row r rows) = S (length rows).
Proof.
  induction rows as [|x rest IH]; simpl; [reflexivity|].
  destruct (day_ltb (h_day x) (h_day r)); simpl; [rewrite IH|]; reflexivity.
Qed.

Lemma sorted_length rows : length (sorted rows) = length rows.
Proof.
  induction rows as [|r rest IH]; simpl; [reflexivity|].
  rewrite insert_row_length, IH. reflexivity.
Qed.

Lemma prices_by_day_length rows : length (prices_by_day rows) = length rows.
Proof. unfold prices_by_day. rewrite length_map. apply sorted_length. Qed.

Lemma sorted_ascending rows : ascending rows -> sorted rows = rows.
Proof.
  induction rows as [|r rest IH]; simpl; [reflexivity|].
  intros [Hhead Hrest]. rewrite (IH Hrest).
  destruct rest as [|x rest']; simpl; [reflexivity|].
  rewrite Hhead. reflexivity.
Qed.

(** With a window that fits, [_sma] is the average of the specification. *)
Lemma sma_window (n : nat) (prices : list num) :
  (0 < n)%nat -> (n <= length prices)%nat ->
  _sma prices (Z.of_nat n) = SMA n prices.
Proof.
  intros Hpos Hfit. unfold _sma, last_slice, SMA.
  replace (Z.of_nat n <=? 0)%Z with false by (symmetry; apply Z.leb_gt; lia).
  replace (Z.of_nat (length prices) <? Z.of_nat n)%Z with false
    by (symmetry; apply Z.ltb_ge; lia).
  rewrite Nat2Z.id. reflexivity.
Qed.

Lemma sma_all (prices : list num) :
  (0 < length prices)%nat ->
  _sma prices (Z.of_nat (length prices)) = mean prices.
Proof.
  intros Hpos. rewrite sma_window by lia. unfold SMA.
  rewrite Nat.sub_diag. reflexivity.
Qed.

Lemma decide_from_history_short tkr rows :
  (length (prices_by_day rows) < 3)%nat ->
  decide_from_history tkr rows = "HOLD".
Proof.
  intros Hshort. unfold decide_from_history. fold (prices_by_day rows).
  apply Nat.ltb_lt in Hshort. rewrite Hshort. reflexivity.
Qed.

Lemma decide_from_history_enough tkr rows :
  (3 <= length (prices_by_day rows))%nat ->
  decide_from_history tkr rows
    = let short := SMA 3 (prices_by_day rows) in
      let long := long_average (prices_by_day rows) in
      if neb short short || neb long long then "HOLD"
      else if gtb short long then "BUY"
      else if ltb short long then "SELL"
      else "HOLD".
Proof.
  intros Henough. unfold decide_from_history, long_average.
  fold (prices_by_day rows).
  replace (length (prices_by_day rows) <? 3)%nat with false
    by (symmetry; apply Nat.ltb_ge; exact Henough).
  change 3%Z with (Z.of_nat 3). rewrite sma_window by lia.
  destruct (5 <=? length (prices_by_day rows))%nat eqn:Hfive.
  - apply Nat.leb_le in Hfive.
    change 5%Z with (Z.of_nat 5). rewrite sma_window by lia. reflexivity.
  - rewrite sma_all by lia. reflexivity.
Qed.

End Crossover.

(** C7. [decide_from_history] looks at the prices of the rows by ascending
    day (rows already in that order are taken as they come). With fewer
    than three of them it answers HOLD. Otherwise, short being the average
    of the last three and long the average of the last five, or of all of
    them when there are fewer than five, it answers BUY when short > long,
    SELL when short < long and HOLD when short == long. The prices
    10, 11, 12, 13, 14 (short 13, long 12) give BUY, also when the rows
    come latest day first; the prices 14, 13, 12, 11, 10 give SELL; and
    two rows always give HOLD. *)
Theorem crossover_decision :
  (forall (N : PyNumber) (D : PyDay) (tkr : string)
          (rows : list HistoryPoint),
     let prices := prices_by_day rows in
     let short := strategy_rules.SMA 3 prices in
     let long := long_average prices in
     ((length prices < 3)%nat ->
      strategy_rules.decide_from_history tkr rows = "HOLD") /\
     ((3 <= length prices)%nat ->
      (gtb short long = true ->
       strategy_rules.decide_from_history tkr rows = "BUY") /\
      (ltb short long = true ->
       strategy_rules.decide_from_history tkr rows = "SELL") /\
      (eqb_num short long = true ->
       strategy_rules.decide_from_history tkr rows = "HOLD"))) /\
  (forall (N : PyNumber) (D : PyDay) (rows : list HistoryPoint),
     strategy_rules.ascending rows ->
     prices_by_day rows = map (fun r => to_float (h_price r)) rows) /\
  (forall (N : PyNumber) (D : PyDay) (tkr : string)
          (rows : list HistoryPoint),
     length rows = 2%nat ->
     strategy_rules.decide_from_history tkr rows = "HOLD") /\
  strategy_rules.SMA 3 (prices_by_day (history_of [10; 11; 12; 13; 14]%Z))
    = qz 13 /\
  long_average (prices_by_day (history_of [10; 11; 12; 13; 14]%Z)) = qz 12 /\
  strategy_rules.decide_from_history "T" (history_of [10; 11; 12; 13; 14]%Z)
    = "BUY" /\
  strategy_rules.decide_from_history "T" (history_of [14; 13; 12; 11; 10]%Z)
    = "SELL" /\
  strategy_rules.decide_from_history "T"
      (rev (history_of [10; 11; 12; 13; 14]%Z))
    = "BUY".
Proof.
  split.
  { intros N D tkr rows prices short long. split.
    - apply decide_from_history_short.
    - intros Henough.
      rewrite (decide_from_history_enough tkr rows Henough).
      fold prices. fold short. fold long. cbv zeta.
      split; [|split].
      + intros Hgt. destruct (gtb_ordered _ _ Hgt) as [-> ->].
        simpl. rewrite Hgt. reflexivity.
      + intros Hlt. destruct (ltb_ordered _ _ Hlt) as [-> ->]. simpl.
        destruct (gtb short long) eqn:Hgt.
        * apply gtb_not_ltb in Hgt. congruence.
        * rewrite Hlt. reflexivity.
      + unfold eqb_num. intros Heq. apply negb_true_iff in Heq.
        destruct (eq_not_ordered _ _ Heq) as [-> ->].
        destruct (neb short short || neb long long); reflexivity. }
  split.
  { intros N D rows Hasc. unfold prices_by_day.
    rewrite (sorted_ascending rows Hasc). reflexivity. }
  split.
  { intros N D tkr rows Htwo. apply decide_from_history_short.
    rewrite prices_by_day_length, Htwo. lia. }
  repeat split; vm_compute; reflexivity.
Qed.

Lemma crossover_decision_witness :
  (3 <= length (prices_by_day (history_of [10; 11; 12; 13; 14]%Z)))%nat /\
  gtb (strategy_rules.SMA 3 (prices_by_day (history_of [10; 11; 12; 13; 14]%Z)))
      (long_average (prices_by_day (history_of [10; 11; 12; 13; 14]%Z))) = true /\
  strategy_rules.ascending (history_of [10; 11; 12; 13; 14]%Z) /\
  length (history_of [3; 9]%Z) = 2%nat /\
  strategy_rules.decide_from_history "T" (history_of [10; 11; 12; 13; 14]%Z)
    = "BUY" /\
  strategy_rules.decide_from_history "T" (history_of [3; 9]%Z) = "HOLD".
Proof.
  destruct crossover_decision as (Hrule & Hsorted & Htwo & _).
  destruct (Hrule QNumber ZDay "T" (history_of [10; 11; 12; 13; 14]%Z))
    as (_ & Henough).
  assert (Hlen : (3 <= length (prices_by_day
                                 (history_of [10; 11; 12; 13; 14]%Z)))%nat)
    by (vm_compute; lia).
  destruct (Henough Hlen) as (Hbuy & _).
  split; [exact Hlen|].
  split; [reflexivity|].
  split; [vm_compute; tauto|].
  split; [reflexivity|].
  split; [exact (Hbuy eq_refl)|].
  exact (Htwo QNumber ZDay "T" (history_of [3; 9]%Z) eq_refl).
Defined.

(** ** The tick pipeline of app.py *)

Section Pipeline.
Context {N : PyNumber} {D : PyDay}.
Import ai_module app.

Variable chat_completions : NormalizedData -> ChatReply.
Variable make_trade : string -> list Decision -> MothershipReply.

(** A payload whose three lists are present and non-empty runs the whole
    pipeline; what it answers and leaves behind is determined by the outcome
    of [process_tick_with_ai]. *)
Lemma tick_pipeline tid td w positions market_summary history :
  Positions td = Some positions -> positions <> [] ->
  Market_Summary td = Some market_summary -> market_summary <> [] ->
  market_history td = Some history -> history <> [] ->
  tick chat_completions make_trade tid (Json td) w
    = match process_tick_with_ai chat_completions make_trade
              (normalized positions market_summary history w) tid (env w) with
      | (Returns (recs, response), e) =>
          (Returns
             {| body := Success
                          (calculate_unrealized_pnl positions market_summary)
                          (length positions) (tick_day history w) recs;
                status := 200 |},
           {| POSITIONS_FILE := Some (adopted positions response);
              TRADING_LOG_FILE :=
                Some (trading_log w
                      ++ [audit_entry tid positions market_summary history w
                            recs response]);
              env := e;
              now_isoformat := now_isoformat w;
              now_date := now_date w |})
      | (Raises exc, e) =>
          (Returns (failure 500 exc),
           {| POSITIONS_FILE := Some positions;
              TRADING_LOG_FILE := TRADING_LOG_FILE w;
              env := e;
              now_isoformat := now_isoformat w;
              now_date := now_date w |})
      end.
Proof.
  intros Hp Hpne Hm Hmne Hh Hhne.
  unfold tick, no_data. rewrite Hp, Hm, Hh. simpl.
  destruct positions as [|p ps]; [congruence|].
  destruct market_summary as [|m ms]; [congruence|].
  destruct history as [|h hs]; [congruence|].
  unfold falsy, try_except, bind, in_env, normalized, tick_day.
  destruct (last (h :: hs)) as [row|] eqn:Hlast.
  - simpl.
    destruct (process_tick_with_ai _ _ _ tid (env w)) as [[[recs response]|exc] e];
      [|reflexivity].
    unfold audit_entry, adopted, tick_day. rewrite Hlast.
    destruct (mr_error response); [reflexivity|].
    destruct (mr_Positions response); reflexivity.
  - simpl.
    destruct (process_tick_with_ai _ _ _ tid (env w)) as [[[recs response]|exc] e];
      [|reflexivity].
    unfold audit_entry, adopted, tick_day. rewrite Hlast.
    destruct (mr_error response); [reflexivity|].
    destruct (mr_Positions response); reflexivity.
Qed.





End Pipeline.

(** ** Validation of a body without history *)

Section Validation.
Context {N : PyNumber}.
Import validators.

Variable py_float : json -> coercion.
Variable py_int : json -> coercion.

(** [float()] accepts a JSON number. *)
Hypothesis float_of_number : forall n : num, py_float (JNum n) = Coerced.

Lemma check_position_encoded i p :
  check_position py_float i (position_to_json p) = Returns None.
Proof.
  unfold check_position, position_to_json, subscript.
  vm_compute first_missing.
  rewrite lookup_insert_eq. simpl.
  rewrite lookup_insert_ne, lookup_insert_eq by discriminate.
  rewrite !lookup_insert_ne, lookup_insert_eq by discriminate.
  rewrite !float_of_number. reflexivity.
Qed.

Lemma check_summary_item_encoded i item :
  check_summary_item py_float i (summary_item_to_json item) = Returns None.
Proof.
  unfold check_summary_item, summary_item_to_json.
  rewrite lookup_insert_eq.
  rewrite lookup_insert_ne, lookup_insert_eq by discriminate.
  simpl. rewrite float_of_number. reflexivity.
Qed.

Lemma for_each_passes {A} (check : nat -> json -> verdict)
    (encode : A -> json) (items : list A) :
  (forall i x, check i (encode x) = Returns None) ->
  forall i, for_each check i (map encode items) = Returns None.
Proof.
  intros Hcheck. induction items as [|x rest IH]; intros i; simpl.
  - reflexivity.
  - rewrite Hcheck. simpl. apply IH.
Qed.

Lemma validate_body_without_history positions market_summary :
  positions <> [] -> market_summary <> [] ->
  validate_tick_payload py_float py_int
      (body_without_history positions market_summary)
    = Returns (true, "").
Proof.
  intros Hp Hm. unfold validate_tick_payload, body_without_history, subscript.
  rewrite lookup_insert_eq.
  rewrite lookup_insert_ne, lookup_insert_eq by discriminate.
  rewrite !lookup_insert_ne, lookup_insert_eq by discriminate.
  replace (first_missing _ _) with (@None string).
  2:{ unfold first_missing. rewrite lookup_insert_eq.
      rewrite lookup_insert_ne, lookup_insert_eq by discriminate.
      rewrite !lookup_insert_ne, lookup_insert_eq by discriminate.
      reflexivity. }
  destruct positions as [|p ps]; [congruence|].
  destruct market_summary as [|m ms]; [congruence|].
  rewrite (for_each_passes (check_position py_float) position_to_json (p :: ps))
    by (intros; apply check_position_encoded).
  rewrite (for_each_passes (check_summary_item py_float) summary_item_to_json
             (m :: ms))
    by (intros; apply check_summary_item_encoded).
  reflexivity.
Qed.

End Validation.

(** C3. A body whose Positions and Market_Summary are non-empty lists of
    well-formed items and whose market_history is the empty list passes
    [validate_tick_payload]; the /tick handler nevertheless answers it with
    400 "Missing market_history field" and leaves files, log and
    environment untouched, because it tests the list for truth and not for
    presence. *)
Theorem empty_history_validated_but_rejected {N : PyNumber} {D : PyDay}
    (py_float py_int : json -> coercion)
    (chat_completions : ai_module.NormalizedData -> ai_module.ChatReply)
    (make_trade : string -> list ai_module.Decision
                  -> ai_module.MothershipReply)
    (tid : string) (positions : list Position)
    (market_summary : list MarketSummaryItem) (w : app.World) :
  positions <> [] -> market_summary <> [] ->
  (forall n : num, py_float (JNum n) = Coerced) ->
  validators.validate_tick_payload py_float py_int
      (validators.body_without_history positions market_summary)
    = Returns (true, "") /\
  app.tick chat_completions make_trade tid
      (app.Json {| Positions := Some positions;
                   Market_Summary := Some market_summary;
                   market_history := Some [] |}) w
    = (Returns {| app.body := app.Failure "Missing market_history field";
                  app.status := 400 |}, w).
Proof.
  intros Hp Hm Hfloat. split.
  - apply validate_body_without_history; assumption.
  - destruct positions as [|p ps]; [congruence|].
    destruct market_summary as [|m ms]; [congruence|].
    reflexivity.
Qed.

Lemma empty_history_validated_but_rejected_witness :
  [position_A] <> [] /\ summary_A_8 <> [] /\
  (forall n : @num QNumber, float_of_json (JNum n) = Coerced) /\
  validators.validate_tick_payload float_of_json int_of_json
      (validators.body_without_history [position_A] summary_A_8)
    = Returns (true, "") /\
  app.tick chat_sell_A mothership_down "t1"
      (app.Json payload_A_no_history) world_0
    = (Returns {| app.body := app.Failure "Missing market_history field";
                  app.status := 400 |}, world_0).
Proof.
  assert (Hp : [position_A] <> []) by discriminate.
  assert (Hm : summary_A_8 <> []) by discriminate.
  assert (Hf : forall n : @num QNumber, float_of_json (JNum n) = Coerced)
    by reflexivity.
  split; [exact Hp|]. split; [exact Hm|]. split; [exact Hf|].
  exact (empty_history_validated_but_rejected (D := ZDay)
           float_of_json int_of_json chat_sell_A mothership_down "t1"
           [position_A] summary_A_8 world_0 Hp Hm Hf).
Defined.






(** * Further properties *)

(** ** validators.py *)

Section ValidatorFacts.
Context {N : PyNumber}.
Import validators.

Variable py_float : json -> coercion.
Variable py_int : json -> coercion.

Lemma try_coerce_passes first second msg :
  try_coerce first second msg = Returns None
  <-> coerced first && coerced second = true.
Proof.
  destruct first, second; simpl; split; intros Heq;
    try discriminate; reflexivity.
Qed.

Lemma check_position_passes i pos :
  check_position py_float i pos = Returns None
  <-> position_ok py_float pos = true.
Proof.
  unfold check_position, position_ok, subscript.
  destruct pos as [| | | | |items|d]; try (split; discriminate).
  simpl.
  destruct (d !! "ticker") as [t|]; [|split; discriminate].
  destruct (d !! "quantity") as [q|];
    [|destruct t; split; discriminate].
  destruct (d !! "purchase_price") as [pp|];
    [|destruct t; split; discriminate].
  destruct t; simpl; try (split; discriminate).
  apply try_coerce_passes.
Qed.

Lemma check_summary_item_passes i item :
  check_summary_item py_float i item = Returns None
  <-> summary_item_ok py_float item = true.
Proof.
  unfold check_summary_item, summary_item_ok.
  destruct item as [| | | | |items|d]; try (split; discriminate).
  destruct (d !! "ticker") as [t|]; [|split; discriminate].
  destruct (d !! "current_price") as [price|];
    [|destruct t; split; discriminate].
  destruct t; simpl; try (split; discriminate).
  rewrite try_coerce_passes, andb_true_r. reflexivity.
Qed.

Lemma check_history_item_passes i item :
  check_history_item py_float py_int i item = Returns None
  <-> history_item_ok py_float py_int item = true.
Proof.
  unfold check_history_item, history_item_ok, subscript.
  destruct item as [| | | | |items|d]; try (split; discriminate).
  simpl.
  destruct (d !! "ticker") as [t|]; [|split; discriminate].
  destruct (d !! "price") as [price|];
    [|destruct t; split; discriminate].
  destruct (d !! "day") as [dy|];
    [|destruct t; split; discriminate].
  destruct t; simpl; try (split; discriminate).
  apply try_coerce_passes.
Qed.

(** A loop passes exactly when every item does. *)
Lemma for_each_passes_iff (check : nat -> json -> verdict)
    (ok : json -> bool) (items : list json) :
  (forall i x, check i x = Returns None <-> ok x = true) ->
  forall i, for_each check i items = Returns None
            <-> forallb ok items = true.
Proof.
  intros Hcheck. induction items as [|x rest IH]; intros i; simpl.
  - tauto.
  - rewrite andb_true_iff, <- (Hcheck i x), <- (IH (S i)).
    destruct (check i x) as [[msg|]|e]; simpl;
      split; try tauto; try (intros [Hx _]; discriminate Hx);
      try discriminate.
Qed.

(** A loop stops at the first item that does not pass, and answers what
    the check of that item, at its own index, answers. *)
Lemma for_each_first_failure (check : nat -> json -> verdict)
    (good : list json) (bad : json) (rest : list json) (i : nat) :
  (forall j x, x ∈ good -> check j x = Returns None) ->
  check (i + length good)%nat bad <> Returns None ->
  for_each check i (good ++ bad :: rest) = check (i + length good)%nat bad.
Proof.
  revert i. induction good as [|x good IH]; intros i Hgood Hbad; simpl.
  - rewrite Nat.add_0_r in *.
    destruct (check i bad) as [[msg|]|e]; simpl; congruence.
  - rewrite (Hgood i x) by left. simpl.
    rewrite IH; [f_equal; lia | intros; apply Hgood; right; assumption |].
    simpl in Hbad. replace (S i + length good)%nat
      with (i + S (length good))%nat by lia. exact Hbad.
Qed.

Lemma and_then_passes (v k : verdict) :
  and_then v k = Returns None <-> v = Returns None /\ k = Returns None.
Proof.
  destruct v as [[msg|]|e]; simpl; split; try tauto;
    try discriminate; intros [Hv _]; discriminate Hv.
Qed.

Lemma verdict_accepts (v : verdict) :
  match v with
  | Returns None => Returns (true, "")
  | Returns (Some msg) => Returns (false, msg)
  | Raises e => Raises e
  end = Returns (true, "")
  <-> v = Returns None.
Proof.
  destruct v as [[msg|]|e]; split; intros Heq; try discriminate; reflexivity.
Qed.

Lemma validate_accepts_iff_checks payload :
  validate_tick_payload py_float py_int payload = Returns (true, "")
  <-> well_formed py_float py_int payload = true.
Proof.
  unfold validate_tick_payload.
  etransitivity; [apply verdict_accepts|].
  unfold well_formed, subscript.
  destruct payload as [| | | | |items|d]; try (split; discriminate).
  simpl first_missing.
  destruct (d !! "Positions") as [positions|];
    [|split; [discriminate | intros; repeat case_match; discriminate]].
  destruct (d !! "Market_Summary") as [market_summary|];
    [|split; [discriminate | intros; repeat case_match; discriminate]].
  destruct (d !! "market_history") as [hist|];
    [|split; [discriminate | intros; repeat case_match; discriminate]].
  rewrite !and_then_passes.
  destruct positions as [| | | | |[|p ps]|];
    try (split; [intros (H1 & _); discriminate H1 | discriminate]).
  destruct market_summary as [| | | | |[|m ms]|];
    try (split; [intros (_ & H2 & _); discriminate H2 | discriminate]).
  destruct hist as [| | | | |hs|];
    try (split; [intros (_ & _ & H3); discriminate H3 | discriminate]).
  rewrite !andb_true_iff.
  rewrite (for_each_passes_iff (check_position py_float)
             (position_ok py_float) (p :: ps) check_position_passes 0%nat).
  rewrite (for_each_passes_iff (check_summary_item py_float)
             (summary_item_ok py_float) (m :: ms)
             check_summary_item_passes 0%nat).
  rewrite (for_each_passes_iff (check_history_item py_float py_int)
             (history_item_ok py_float py_int) hs
             check_history_item_passes 0%nat).
  tauto.
Qed.

Lemma try_coerce_raises first second msg e :
  try_coerce first second msg = Raises e ->
  first = OtherError e \/ second = OtherError e.
Proof.
  destruct first, second; simpl; intros Heq; try discriminate;
    injection Heq as ->; tauto.
Qed.

Lemma check_position_raises i pos e :
  check_position py_float i pos = Raises e ->
  exists v, py_float v = OtherError e.
Proof.
  unfold check_position, subscript.
  destruct pos as [| | | | |items|d]; try discriminate.
  simpl.
  destruct (d !! "ticker") as [t|]; [|discriminate].
  destruct (d !! "quantity") as [q|]; [|discriminate].
  destruct (d !! "purchase_price") as [pp|]; [|discriminate].
  destruct (negb (is_str t)); [discriminate|].
  intros Hraise. apply try_coerce_raises in Hraise.
  destruct Hraise; eauto.
Qed.

Lemma check_summary_item_raises i item e :
  check_summary_item py_float i item = Raises e ->
  exists v, py_float v = OtherError e.
Proof.
  unfold check_summary_item.
  destruct item as [| | | | |items|d]; try discriminate.
  destruct (d !! "ticker") as [t|]; [|discriminate].
  destruct (d !! "current_price") as [price|]; [|discriminate].
  destruct (negb (is_str t)); [discriminate|].
  intros Hraise. apply try_coerce_raises in Hraise.
  destruct Hraise as [Hraise|Hraise]; [eauto | discriminate Hraise].
Qed.

Lemma check_history_item_raises i item e :
  check_history_item py_float py_int i item = Raises e ->
  exists v, py_float v = OtherError e \/ py_int v = OtherError e.
Proof.
  unfold check_history_item, subscript.
  destruct item as [| | | | |items|d]; try discriminate.
  simpl.
  destruct (d !! "ticker") as [t|]; [|discriminate].
  destruct (d !! "price") as [price|]; [|discriminate].
  destruct (d !! "day") as [dy|]; [|discriminate].
  destruct (negb (is_str t)); [discriminate|].
  intros Hraise. apply try_coerce_raises in Hraise.
  destruct Hraise; eauto.
Qed.

Lemma for_each_raises (check : nat -> json -> verdict) items e :
  forall i, for_each check i items = Raises e ->
            exists j x, check j x = Raises e.
Proof.
  induction items as [|x rest IH]; intros i; simpl; [discriminate|].
  destruct (check i x) as [[msg|]|e'] eqn:Hx; simpl.
  - discriminate.
  - apply IH.
  - intros Heq. injection Heq as ->. eauto.
Qed.

Lemma and_then_raises (v k : verdict) e :
  and_then v k = Raises e -> v = Raises e \/ k = Raises e.
Proof. destruct v as [[msg|]|e']; simpl; tauto. Qed.

Lemma validate_first_bad_position (d : gmap string json) good bad rest :
  d !! "Positions" = Some (JArr (good ++ bad :: rest)) ->
  is_Some (d !! "Market_Summary") -> is_Some (d !! "market_history") ->
  forallb (position_ok py_float) good = true ->
  match bad with JObj _ => False | _ => True end ->
  validate_tick_payload py_float py_int (JObj d)
    = Returns (false, "Position at index " +:+ pretty (length good)
                      +:+ " must be an object").
Proof.
  intros HP [ms HM] [hs HH] Hgood Hbad.
  unfold validate_tick_payload, subscript. simpl first_missing.
  rewrite HP, HM, HH.
  assert (Hloop : for_each (check_position py_float) 0 (good ++ bad :: rest)
            = Returns (Some ("Position at index " +:+ pretty (length good)
                             +:+ " must be an object"))).
  { rewrite for_each_first_failure.
    - simpl. destruct bad; try reflexivity. destruct Hbad.
    - intros j x Hx. apply check_position_passes.
      rewrite forallb_forall in Hgood. apply Hgood, list_elem_of_In, Hx.
    - simpl. destruct bad; try discriminate. destruct Hbad. }
  destruct (good ++ bad :: rest) as [|x l] eqn:Hlist.
  { destruct good; discriminate Hlist. }
  rewrite Hloop. reflexivity.
Qed.

Lemma validate_raises payload e :
  validate_tick_payload py_float py_int payload = Raises e ->
  exists v, py_float v = OtherError e \/ py_int v = OtherError e.
Proof.
  unfold validate_tick_payload.
  match goal with
  | |- match ?c with _ => _ end = _ -> _ =>
      destruct c as [[msg|]|e'] eqn:Hchecks; try discriminate
  end.
  intros Heq. injection Heq as ->.
  unfold subscript in Hchecks.
  destruct payload as [| | | | |items|d]; try discriminate.
  simpl first_missing in Hchecks.
  destruct (d !! "Positions") as [positions|]; [|discriminate].
  destruct (d !! "Market_Summary") as [market_summary|]; [|discriminate].
  destruct (d !! "market_history") as [hist|]; [|discriminate].
  apply and_then_raises in Hchecks. destruct Hchecks as [H1|Hchecks].
  { destruct positions as [| | | | |[|p ps]|]; try discriminate.
    apply for_each_raises in H1. destruct H1 as (j & x & H1).
    apply check_position_raises in H1. destruct H1 as [v Hv]. eauto. }
  apply and_then_raises in Hchecks. destruct Hchecks as [H2|H3].
  { destruct market_summary as [| | | | |[|m ms]|]; try discriminate.
    apply for_each_raises in H2. destruct H2 as (j & x & H2).
    apply check_summary_item_raises in H2. destruct H2 as [v Hv]. eauto. }
  destruct hist as [| | | | |hs|]; try discriminate.
  apply for_each_raises in H3. destruct H3 as (j & x & H3).
  apply check_history_item_raises in H3. exact H3.
Qed.

End ValidatorFacts.

(** X1. [validate_tick_payload] answers (True, "") for exactly the
    well-formed bodies: objects whose Positions and Market_Summary are
    non-empty lists and whose market_history is a list (empty or not), every
    item an object with a string ticker and coercible numbers. *)
Theorem validation_accepts_exactly_well_formed {N : PyNumber}
    (py_float py_int : json -> coercion) (payload : json) :
  validators.validate_tick_payload py_float py_int payload = Returns (true, "")
  <-> well_formed py_float py_int payload = true.
Proof. apply validate_accepts_iff_checks. Qed.

Lemma validation_accepts_exactly_well_formed_witness :
  well_formed float_of_json int_of_json
    (validators.body_without_history [position_A] summary_A_8) = true /\
  validators.validate_tick_payload float_of_json int_of_json
    (validators.body_without_history [position_A] summary_A_8)
    = Returns (true, "") /\
  validators.validate_tick_payload float_of_json int_of_json
    (validators.body_without_history [] summary_A_8)
    <> Returns (true, "").
Proof.
  assert (Hwf : well_formed float_of_json int_of_json
            (validators.body_without_history [position_A] summary_A_8) = true)
    by (vm_compute; reflexivity).
  split; [exact Hwf|].
  split.
  - apply validation_accepts_exactly_well_formed. exact Hwf.
  - intros Hacc. apply validation_accepts_exactly_well_formed in Hacc.
    vm_compute in Hacc. discriminate Hacc.
Defined.

(** X2. Whatever the body, [validate_tick_payload] raises nothing of its
    own (no KeyError, no index error): an exception that escapes it was
    raised by [float()] or [int()] on some value and is not a ValueError or
    TypeError. *)
Theorem validation_raises_only_from_builtins {N : PyNumber}
    (py_float py_int : json -> coercion) (payload : json) (e : string) :
  validators.validate_tick_payload py_float py_int payload = Raises e ->
  exists v : json, py_float v = OtherError e \/ py_int v = OtherError e.
Proof. apply validate_raises. Qed.

Lemma validation_raises_only_from_builtins_witness :
  validators.validate_tick_payload float_overflowing int_of_json
    (object_of
       [("Positions",
         JArr [object_of [("ticker", JStr "A");
                          ("quantity", JInt (2 ^ 1024));
                          ("purchase_price", JInt 5)]]);
        ("Market_Summary", JArr []);
        ("market_history", JArr [])])
    = Raises "OverflowError" /\
  exists v : json,
    float_overflowing v = OtherError "OverflowError" \/
    int_of_json v = OtherError "OverflowError".
Proof.
  assert (Hraise : validators.validate_tick_payload float_overflowing int_of_json
    (object_of
       [("Positions",
         JArr [object_of [("ticker", JStr "A");
                          ("quantity", JInt (2 ^ 1024));
                          ("purchase_price", JInt 5)]]);
        ("Market_Summary", JArr []);
        ("market_history", JArr [])])
    = Raises "OverflowError") by (vm_compute; reflexivity).
  split; [exact Hraise|].
  exact (validation_raises_only_from_builtins _ _ _ _ Hraise).
Defined.

(** X3. When the first entry of Positions that is not well formed is not
    even an object, [validate_tick_payload] stops there and names its index,
    counted from 0, whatever follows it and whatever the other two fields
    hold. *)
Theorem validation_reports_first_bad_position {N : PyNumber}
    (py_float py_int : json -> coercion) (d : gmap string json)
    (good : list json) (bad : json) (rest : list json) :
  d !! "Positions" = Some (JArr (good ++ bad :: rest)) ->
  is_Some (d !! "Market_Summary") -> is_Some (d !! "market_history") ->
  forallb (position_ok py_float) good = true ->
  match bad with JObj _ => False | _ => True end ->
  validators.validate_tick_payload py_float py_int (JObj d)
    = Returns (false, "Position at index " +:+ pretty (length good)
                      +:+ " must be an object").
Proof. apply validate_first_bad_position. Qed.

Lemma validation_reports_first_bad_position_witness :
  validators.validate_tick_payload float_of_json int_of_json
    (object_of
       [("Positions",
         JArr [validators.position_to_json position_A; JStr "B"; JNull]);
        ("Market_Summary", JNull);
        ("market_history", JArr [])])
    = Returns (false, "Position at index 1 must be an object").
Proof.
  apply (validation_reports_first_bad_position float_of_json int_of_json
           _ [validators.position_to_json position_A] (JStr "B") [JNull]).
  - reflexivity.
  - eexists; reflexivity.
  - eexists; reflexivity.
  - vm_compute. reflexivity.
  - exact I.
Defined.

(** ** strategy_rules.py *)

Section SortFacts.
Context {N : PyNumber} {D : PyDay} `{EqDecision day}.
Import strategy_rules.

(** [<] on days is never true both ways. *)
Hypothesis day_ltb_asym :
  forall a b : day, day_ltb a b = true -> day_ltb b a = false.







End SortFacts.



Section SignalFacts.
Context {N : PyNumber} {D : PyDay}.
Import strategy_rules.

Lemma SMA_of_last_five (prices : list num) :
  (5 <= length prices)%nat ->
  SMA 3 prices = SMA 3 (drop (length prices - 5) prices) /\
  SMA 5 prices = SMA 5 (drop (length prices - 5) prices).
Proof.
  intros Hfive. unfold SMA. rewrite !length_drop, !drop_drop.
  split; f_equal; f_equal; lia.
Qed.

Lemma decision_of_last_five tkr rows :
  (5 <= length (prices_by_day rows))%nat ->
  decide_from_history tkr rows
    = let recent := drop (length (prices_by_day rows) - 5) (prices_by_day rows) in
      let short := SMA 3 recent in
      let long := SMA 5 recent in
      if neb short short || neb long long then "HOLD"
      else if gtb short long then "BUY"
      else if ltb short long then "SELL"
      else "HOLD".
Proof.
  intros Hfive. rewrite decide_from_history_enough by lia.
  unfold long_average.
  replace (5 <=? length (prices_by_day rows))%nat with true
    by (symmetry; apply Nat.leb_le; exact Hfive).
  destruct (SMA_of_last_five _ Hfive) as [<- <-]. reflexivity.
Qed.

End SignalFacts.

(** X5. [decide_from_history] answers BUY, SELL or HOLD and nothing else.
    It answers BUY only with at least three prices, both averages being
    numbers and short > long; it answers SELL only with at least three
    prices, both averages being numbers, short < long and not short > long.
    Too little history or an average that is not a number never yields a
    trade signal. *)
Theorem crossover_signals_are_justified {N : PyNumber} {D : PyDay}
    (tkr : string) (rows : list HistoryPoint) :
  let prices := prices_by_day rows in
  let short := strategy_rules.SMA 3 prices in
  let long := long_average prices in
  (strategy_rules.decide_from_history tkr rows = "BUY" ->
   (3 <= length prices)%nat /\ neb short short = false /\
   neb long long = false /\ gtb short long = true) /\
  (strategy_rules.decide_from_history tkr rows = "SELL" ->
   (3 <= length prices)%nat /\ neb short short = false /\
   neb long long = false /\ gtb short long = false /\
   ltb short long = true) /\
  (strategy_rules.decide_from_history tkr rows = "BUY" \/
   strategy_rules.decide_from_history tkr rows = "SELL" \/
   strategy_rules.decide_from_history tkr rows = "HOLD").
Proof.
  intros prices short long.
  destruct (Nat.lt_ge_cases (length prices) 3) as [Hshort|Henough].
  - rewrite (decide_from_history_short tkr rows Hshort).
    split; [discriminate|]. split; [discriminate|]. tauto.
  - rewrite (decide_from_history_enough tkr rows Henough).
    fold prices. fold short. fold long. cbv zeta.
    destruct (neb short short) eqn:Hs; simpl.
    { split; [discriminate|]. split; [discriminate|]. tauto. }
    destruct (neb long long) eqn:Hl; simpl.
    { split; [discriminate|]. split; [discriminate|]. tauto. }
    destruct (gtb short long) eqn:Hgt.
    { split; [tauto|]. split; [discriminate|]. tauto. }
    destruct (ltb short long) eqn:Hlt.
    { split; [discriminate|]. split; [tauto|]. tauto. }
    split; [discriminate|]. split; [discriminate|]. tauto.
Qed.

Lemma crossover_signals_are_justified_witness :
  strategy_rules.decide_from_history "T" (history_of [10; 11; 12; 13; 14]%Z)
    = "BUY" /\
  strategy_rules.decide_from_history "T" (history_of [14; 13; 12; 11; 10]%Z)
    = "SELL" /\
  gtb (strategy_rules.SMA 3 (prices_by_day (history_of [10; 11; 12; 13; 14]%Z)))
      (long_average (prices_by_day (history_of [10; 11; 12; 13; 14]%Z)))
    = true /\
  ltb (strategy_rules.SMA 3 (prices_by_day (history_of [14; 13; 12; 11; 10]%Z)))
      (long_average (prices_by_day (history_of [14; 13; 12; 11; 10]%Z)))
    = true.
Proof.
  assert (Hbuy : strategy_rules.decide_from_history "T"
                   (history_of [10; 11; 12; 13; 14]%Z) = "BUY")
    by (vm_compute; reflexivity).
  assert (Hsell : strategy_rules.decide_from_history "T"
                    (history_of [14; 13; 12; 11; 10]%Z) = "SELL")
    by (vm_compute; reflexivity).
  split; [exact Hbuy|]. split; [exact Hsell|].
  destruct (crossover_signals_are_justified "T"
              (history_of [10; 11; 12; 13; 14]%Z)) as (Hb & _ & _).
  destruct (crossover_signals_are_justified "T"
              (history_of [14; 13; 12; 11; 10]%Z)) as (_ & Hs & _).
  destruct (Hb Hbuy) as (_ & _ & _ & Hgt).
  destruct (Hs Hsell) as (_ & _ & _ & _ & Hlt).
  split; [exact Hgt | exact Hlt].
Defined.

(** X6. With five prices or more, the decision depends on the five most
    recent ones only: two histories whose prices by day end with the same
    five get the same answer, whatever came before. *)
Theorem only_last_five_prices_matter {N : PyNumber} {D : PyDay}
    (tkr tkr' : string) (rows rows' : list HistoryPoint) :
  (5 <= length (prices_by_day rows))%nat ->
  (5 <= length (prices_by_day rows'))%nat ->
  drop (length (prices_by_day rows) - 5) (prices_by_day rows)
    = drop (length (prices_by_day rows') - 5) (prices_by_day rows') ->
  strategy_rules.decide_from_history tkr rows
    = strategy_rules.decide_from_history tkr' rows'.
Proof.
  intros Hfive Hfive' Hrecent.
  rewrite (decision_of_last_five tkr rows Hfive).
  rewrite (decision_of_last_five tkr' rows' Hfive').
  rewrite Hrecent. reflexivity.
Qed.

Lemma only_last_five_prices_matter_witness :
  strategy_rules.decide_from_history "T"
      (history_of [90; 1; 10; 11; 12; 13; 14]%Z)
    = strategy_rules.decide_from_history "U"
        (history_of [10; 11; 12; 13; 14]%Z).
Proof.
  apply only_last_five_prices_matter.
  - vm_compute. lia.
  - vm_compute. lia.
  - vm_compute. reflexivity.
Defined.

(** ** business.py: the ledger *)

Section UpsertFacts.
Context {N : PyNumber}.
Import business.

Lemma held_position_of tkr positions :
  held tkr positions = true <-> is_Some (position_of tkr positions).
Proof.
  unfold held, position_of.
  induction positions as [|p rest IH]; simpl.
  - split; [discriminate | intros [x Hx]; discriminate Hx].
  - destruct (String.eqb (ticker p) tkr); simpl; [|exact IH].
    split; eauto.
Qed.

(** What the loop reads and leaves, in terms of the first position that
    carries the ticker. *)
Lemma find_and_update_reads tkr new_price positions :
  snd (fst (find_and_update tkr new_price positions)) = quote_of tkr positions /\
  position_of tkr (fst (fst (find_and_update tkr new_price positions)))
    = repriced new_price <$> position_of tkr positions /\
  map ticker (fst (fst (find_and_update tkr new_price positions)))
    = map ticker positions /\
  forall t, t <> tkr ->
    position_of t (fst (fst (find_and_update tkr new_price positions)))
    = position_of t positions.
Proof.
  unfold quote_of, position_of.
  induction positions as [|p rest IH]; simpl.
  - repeat split.
  - destruct (String.eqb (ticker p) tkr) eqn:Hp; simpl.
    + rewrite Hp. repeat split. intros t Ht.
      apply String.eqb_eq in Hp.
      replace (String.eqb (ticker p) t) with false; [reflexivity|].
      symmetry. apply String.eqb_neq. congruence.
    + destruct (find_and_update tkr new_price rest) as [[rest' old] found].
      simpl in *. destruct IH as (Hold & Hpos & Hmap & Hother).
      rewrite Hp. split; [exact Hold|]. split; [exact Hpos|].
      split; [f_equal; exact Hmap|].
      intros t Ht. rewrite (Hother t Ht). reflexivity.
Qed.

Lemma position_of_app tkr positions (q : Position) :
  position_of tkr (positions ++ [q])
  = match position_of tkr positions with
    | Some p => Some p
    | None => if String.eqb (ticker q) tkr then Some q else None
    end.
Proof.
  unfold position_of. induction positions as [|p rest IH]; simpl.
  - reflexivity.
  - destruct (String.eqb (ticker p) tkr); [reflexivity | exact IH].
Qed.

(** Everything one call of [update_current_positions] does. *)
Lemma update_current_positions_effect td fs :
  exists fs',
    update_current_positions td fs
      = (Returns (Some (default (tick_price td)
                          (quote_of (tick_ticker td) (ledger fs)))), fs') /\
    quote_of (tick_ticker td) (ledger fs') = Some (tick_price td) /\
    (forall t, t <> tick_ticker td ->
       position_of t (ledger fs') = position_of t (ledger fs)) /\
    map ticker (ledger fs')
      = map ticker (ledger fs)
        ++ (if held (tick_ticker td) (ledger fs) then []
            else [tick_ticker td]) /\
    history fs' = history fs /\
    today fs' = today fs.
Proof.
  rewrite update_current_positions_run.
  pose proof (find_and_update_reads (tick_ticker td) (tick_price td) (ledger fs))
    as (Hold & Hpos & Hmap & Hother).
  pose proof (find_and_update_found (tick_ticker td) (tick_price td) (ledger fs))
    as Hfound.
  pose proof (held_position_of (tick_ticker td) (ledger fs)) as Hheld.
  destruct (find_and_update _ _ (ledger fs)) as [[positions old] found].
  simpl in *. subst old found.
  destruct (held (tick_ticker td) (ledger fs)) eqn:Hh.
  - destruct Hheld as [Hheld _]. destruct (Hheld eq_refl) as [p Hp].
    eexists. split.
    { unfold quote_of. rewrite Hp. reflexivity. }
    rewrite ledger_with_positions.
    split; [unfold quote_of; rewrite Hpos, Hp; reflexivity|].
    split; [exact Hother|].
    split; [rewrite Hmap, app_nil_r; reflexivity|].
    split; reflexivity.
  - assert (Hnone : position_of (tick_ticker td) (ledger fs) = None).
    { destruct (position_of (tick_ticker td) (ledger fs)) eqn:Hp;
        [|reflexivity].
      destruct Hheld as [_ Hheld]. discriminate Hheld. eauto. }
    eexists. split.
    { unfold quote_of. rewrite Hnone. reflexivity. }
    rewrite ledger_with_positions.
    split.
    { unfold quote_of. rewrite position_of_app, Hpos, Hnone. simpl.
      rewrite String.eqb_refl. reflexivity. }
    split.
    { intros t Ht. rewrite position_of_app, (Hother t Ht).
      destruct (position_of t (ledger fs)); [reflexivity|].
      simpl. replace (String.eqb (tick_ticker td) t) with false; [reflexivity|].
      symmetry. apply String.eqb_neq. congruence. }
    split; [rewrite map_app, Hmap; reflexivity|].
    split; reflexivity.
Qed.

Lemma repriced_repriced p1 p2 (p : Position) :
  repriced p2 (repriced p1 p) = repriced p2 p.
Proof. reflexivity. Qed.

(** A second run of the loop for the same ticker leaves what a single run
    with the second price would leave. *)
Lemma find_and_update_overwrites tkr p1 p2 positions :
  fst (fst (find_and_update tkr p2
              (fst (fst (find_and_update tkr p1 positions)))))
  = fst (fst (find_and_update tkr p2 positions)).
Proof.
  induction positions as [|p rest IH]; simpl; [reflexivity|].
  destruct (String.eqb (ticker p) tkr) eqn:Hp; simpl.
  - rewrite Hp. reflexivity.
  - destruct (find_and_update tkr p1 rest) as [[rest1 old1] found1].
    destruct (find_and_update tkr p2 rest) as [[rest2 old2] found2] eqn:H2.
    simpl in *. rewrite Hp.
    destruct (find_and_update tkr p2 rest1) as [[rest3 old3] found3].
    simpl in *. congruence.
Qed.

Lemma update_ledger_held td fs :
  held (tick_ticker td) (ledger fs) = true ->
  ledger (snd (update_current_positions td fs))
    = fst (fst (find_and_update (tick_ticker td) (tick_price td) (ledger fs))).
Proof.
  intros Hheld. rewrite update_current_positions_run.
  pose proof (find_and_update_found (tick_ticker td) (tick_price td) (ledger fs))
    as Hfound.
  rewrite Hheld in Hfound.
  destruct (find_and_update _ _ (ledger fs)) as [[positions old] found].
  simpl in *. subst found. reflexivity.
Qed.

End UpsertFacts.

(** X7. [update_current_positions] returns the price the ledger held for
    the ticker before the call, or the tick's own price when it held none
    (never None), and afterwards the ledger holds the tick's price for that
    ticker; a missing or corrupt positions file counts as a ledger that holds
    nothing. *)
Theorem upsert_returns_previous_quote {N : PyNumber}
    (td : business.TickData) (fs : business.Files) :
  exists fs' : business.Files,
    business.update_current_positions td fs
      = (Returns (Some (default (business.tick_price td)
                          (quote_of (business.tick_ticker td) (ledger fs)))),
         fs') /\
    quote_of (business.tick_ticker td) (ledger fs')
      = Some (business.tick_price td) /\
    (business.POSITIONS_FILE fs = None ->
     business.POSITIONS_FILE fs' = Some [opened td]).
Proof.
  destruct (update_current_positions_effect td fs)
    as (fs' & Hrun & Hquote & _).
  exists fs'. split; [exact Hrun|]. split; [exact Hquote|].
  intros Hnone.
  assert (Habsent : held (business.tick_ticker td) (ledger fs) = false)
    by (unfold ledger; rewrite Hnone; reflexivity).
  rewrite (update_current_positions_absent td fs Habsent) in Hrun.
  injection Hrun as _ <-. unfold ledger. rewrite Hnone. reflexivity.
Qed.

Lemma upsert_returns_previous_quote_witness :
  business.POSITIONS_FILE no_files = None /\
  business.update_current_positions tick_X_10 no_files
    = (Returns (Some (qz 10)),
       with_positions no_files [opened tick_X_10]).
Proof.
  split; [reflexivity|].
  destruct (upsert_returns_previous_quote tick_X_10 no_files)
    as (fs' & Hrun & _ & Hfile).
  rewrite Hrun. f_equal.
  specialize (Hfile eq_refl).
  apply (f_equal snd) in Hrun. simpl in Hrun. rewrite <- Hrun. reflexivity.
Defined.

(** X8. [update_current_positions] touches the ticker of the tick only:
    for every other ticker the ledger holds the same position as before, and
    the history file and the date are as before. *)
Theorem upsert_leaves_other_tickers {N : PyNumber}
    (td : business.TickData) (fs : business.Files) (t : string) :
  t <> business.tick_ticker td ->
  let fs' := snd (business.update_current_positions td fs) in
  position_of t (ledger fs') = position_of t (ledger fs) /\
  history fs' = history fs /\
  business.today fs' = business.today fs.
Proof.
  intros Ht fs'.
  destruct (update_current_positions_effect td fs)
    as (fs1 & Hrun & _ & Hother & _ & Hhist & Htoday).
  subst fs'. rewrite Hrun. simpl.
  split; [apply Hother, Ht|]. split; assumption.
Qed.

Lemma upsert_leaves_other_tickers_witness :
  "X" <> business.tick_ticker
           {| business.tick_ticker := "Y"; business.tick_price := qz 3;
              business.tick_quantity := qz 1;
              business.tick_purchase_price := qz 3 |} /\
  position_of "X"
    (ledger (snd (business.update_current_positions
                    {| business.tick_ticker := "Y"; business.tick_price := qz 3;
                       business.tick_quantity := qz 1;
                       business.tick_purchase_price := qz 3 |}
                    files_with_X)))
    = position_of "X" (ledger files_with_X).
Proof.
  assert (Hne : "X" <> "Y") by discriminate.
  split; [exact Hne|].
  exact (proj1 (upsert_leaves_other_tickers
                  {| business.tick_ticker := "Y"; business.tick_price := qz 3;
                     business.tick_quantity := qz 1;
                     business.tick_purchase_price := qz 3 |}
                  files_with_X "X" Hne)).
Defined.

(** X9. [update_current_positions] never removes or reorders a ticker:
    the tickers of the ledger after the call are those before it, in the
    same order, followed by the tick's ticker when the ledger did not hold
    it; so the ledger grows by one position at most. *)
Theorem upsert_keeps_tickers {N : PyNumber}
    (td : business.TickData) (fs : business.Files) :
  let fs' := snd (business.update_current_positions td fs) in
  map ticker (ledger fs')
    = map ticker (ledger fs)
      ++ (if held (business.tick_ticker td) (ledger fs) then []
          else [business.tick_ticker td]) /\
  (length (ledger fs) <= length (ledger fs') <= S (length (ledger fs)))%nat.
Proof.
  intros fs'.
  destruct (update_current_positions_effect td fs)
    as (fs1 & Hrun & _ & _ & Htickers & _).
  subst fs'. rewrite Hrun. simpl. split; [exact Htickers|].
  apply (f_equal (@length string)) in Htickers.
  rewrite length_app, !length_map in Htickers.
  destruct (held _ _); simpl in Htickers; lia.
Qed.

(** X10. Two upserts in a row for one ticker, at any two prices: the
    second call returns the price of the first, and when the ledger held the
    ticker from the start it ends as if only the second upsert had been
    made. *)
Theorem upsert_last_write_wins {N : PyNumber}
    (td td' : business.TickData) (fs : business.Files) :
  business.tick_ticker td' = business.tick_ticker td ->
  let fs1 := snd (business.update_current_positions td fs) in
  fst (business.update_current_positions td' fs1)
    = Returns (Some (business.tick_price td)) /\
  (held (business.tick_ticker td) (ledger fs) = true ->
   ledger (snd (business.update_current_positions td' fs1))
     = ledger (snd (business.update_current_positions td' fs))).
Proof.
  intros Htkr fs1.
  destruct (update_current_positions_effect td fs)
    as (fs1' & Hrun & Hquote & _).
  assert (Hfs1 : fs1 = fs1') by (subst fs1; rewrite Hrun; reflexivity).
  destruct (update_current_positions_effect td' fs1)
    as (fs2 & Hrun2 & _).
  split.
  - rewrite Hrun2, Htkr, Hfs1, Hquote. reflexivity.
  - intros Hheld.
    assert (Hheld1 : held (business.tick_ticker td) (ledger fs1) = true).
    { apply held_position_of. rewrite Hfs1.
      unfold quote_of in Hquote.
      destruct (position_of _ (ledger fs1')); [eauto | discriminate Hquote]. }
    rewrite (update_ledger_held td' fs1) by (rewrite Htkr; exact Hheld1).
    rewrite (update_ledger_held td' fs) by (rewrite Htkr; exact Hheld).
    subst fs1. rewrite (update_ledger_held td fs Hheld), Htkr.
    apply find_and_update_overwrites.
Qed.

Lemma upsert_last_write_wins_witness :
  business.tick_ticker tick_X_12 = business.tick_ticker tick_X_10 /\
  held (business.tick_ticker tick_X_10) (ledger files_with_X) = true /\
  fst (business.update_current_positions tick_X_12
         (snd (business.update_current_positions tick_X_10 files_with_X)))
    = Returns (Some (qz 10)) /\
  ledger (snd (business.update_current_positions tick_X_12
                 (snd (business.update_current_positions tick_X_10
                         files_with_X))))
    = ledger (snd (business.update_current_positions tick_X_12 files_with_X)).
Proof.
  split; [reflexivity|]. split; [reflexivity|].
  destruct (upsert_last_write_wins tick_X_10 tick_X_12 files_with_X eq_refl)
    as (Hret & Hlast).
  split; [exact Hret | exact (Hlast eq_refl)].
Defined.

(** X11. Handing [execute_trading_strategy] the price that
    [update_current_positions] has just returned for the same tick never
    yields INITIAL: the answer is SELL exactly when the ledger already held
    the ticker at a price below the tick's, and STAY otherwise, a first
    sighting included; either way one record is added to the history. *)
Theorem strategy_after_upsert {N : PyNumber}
    (td : business.TickData) (fs : business.Files) :
  exists (previous : option num) (fs1 : business.Files)
         (answer : string) (fs2 : business.Files),
    business.update_current_positions td fs = (Returns previous, fs1) /\
    business.execute_trading_strategy td previous fs1
      = (Returns answer, fs2) /\
    answer <> "INITIAL" /\
    (answer = "SELL" \/ answer = "STAY") /\
    (answer = "SELL" <->
     exists p, quote_of (business.tick_ticker td) (ledger fs) = Some p /\
               gtb (business.tick_price td) p = true) /\
    length (history fs2) = S (length (history fs)) /\
    ledger fs2 = ledger fs1.
Proof.
  destruct (update_current_positions_effect td fs)
    as (fs1 & Hrun & _ & _ & _ & Hhist & _).
  assert (Hgrow : forall rec : business.Transaction,
            length (history (with_history fs1 (history fs1 ++ [rec])))
            = S (length (history fs))).
  { intros rec. unfold history at 1. simpl.
    rewrite length_app, Hhist. simpl. lia. }
  destruct (quote_of (business.tick_ticker td) (ledger fs)) as [p|] eqn:Hq;
    simpl in Hrun;
    [destruct (gtb (business.tick_price td) p) eqn:Hgt|].
  - eexists _, fs1, "SELL", _. split; [exact Hrun|].
    split; [unfold business.execute_trading_strategy; rewrite Hgt; reflexivity|].
    split; [discriminate|]. split; [tauto|].
    split; [split; eauto|].
    split; [apply Hgrow | reflexivity].
  - eexists _, fs1, "STAY", _. split; [exact Hrun|].
    split; [unfold business.execute_trading_strategy; rewrite Hgt; reflexivity|].
    split; [discriminate|]. split; [tauto|].
    split.
    { split; [discriminate|]. intros (p' & Hp' & Hgt').
      injection Hp' as <-. congruence. }
    split; [apply Hgrow | reflexivity].
  - eexists _, fs1, "STAY", _. split; [exact Hrun|].
    split; [unfold business.execute_trading_strategy; rewrite gtb_irrefl;
            reflexivity|].
    split; [discriminate|]. split; [tauto|].
    split.
    { split; [discriminate|]. intros (p' & Hp' & _). discriminate Hp'. }
    split; [apply Hgrow | reflexivity].
Qed.

Lemma strategy_after_upsert_witness :
  quote_of (business.tick_ticker tick_X_12) (ledger files_with_X)
    = Some (qz 10) /\
  gtb (business.tick_price tick_X_12) (qz 10) = true /\
  exists (fs1 fs2 : business.Files),
    business.update_current_positions tick_X_12 files_with_X
      = (Returns (Some (qz 10)), fs1) /\
    business.execute_trading_strategy tick_X_12 (Some (qz 10)) fs1
      = (Returns "SELL", fs2).
Proof.
  split; [reflexivity|]. split; [reflexivity|].
  destruct (strategy_after_upsert tick_X_12 files_with_X)
    as (previous & fs1 & answer & fs2 & Hrun & Hnext & _ & _ & Hsell & _).
  assert (Hprev : Returns previous = Returns (Some (qz 10))).
  { change (Returns previous) with (fst (Returns previous, fs1)).
    rewrite <- Hrun. reflexivity. }
  injection Hprev as ->.
  assert (Hanswer : answer = "SELL").
  { apply Hsell. exists (qz 10). split; reflexivity. }
  subst answer. exists fs1, fs2. split; assumption.
Defined.

(** ** Unrealized P&L *)

Section QuoteFacts.
Context {N : PyNumber}.

Lemma price_lookup_from (d : gmap string num)
    (market_summary : list MarketSummaryItem) (t : string) :
  fold_left (fun d item => <[ms_ticker item := to_float (ms_current_price item)]> d)
            market_summary d !! t
  = match last_quote t market_summary with
    | Some item => Some (to_float (ms_current_price item))
    | None => d !! t
    end.
Proof.
  unfold last_quote. revert d.
  induction market_summary as [|item rest IH]; intros d; simpl.
  - reflexivity.
  - rewrite IH, filter_cons.
    destruct (decide (ms_ticker item = t)) as [Heq|Hne].
    + rewrite last_cons.
      destruct (last (filter _ rest)); [reflexivity|].
      rewrite Heq, lookup_insert_eq. reflexivity.
    + destruct (last (filter _ rest)); [reflexivity|].
      rewrite lookup_insert_ne by exact Hne. reflexivity.
Qed.

Lemma pnl_of_quoted_same_holding (prices : gmap string num)
    (positions positions' : list Position) (total : num) :
  Forall2 same_holding positions positions' ->
  fold_left add (map (position_pnl prices) (filter (quoted prices) positions))
            total
  = fold_left add (map (position_pnl prices) (filter (quoted prices) positions'))
              total.
Proof.
  intros Hsame. revert total.
  induction Hsame as [|p q ps qs (Ht & Hq & Hpp) _ IH]; intros total.
  - reflexivity.
  - destruct (prices !! ticker p) as [price|] eqn:Hp.
    + assert (Hp' : prices !! ticker q = Some price)
        by (rewrite <- Ht; exact Hp).
      rewrite (filter_cons_True _ p) by (unfold quoted; rewrite Hp; eauto).
      rewrite (filter_cons_True _ q) by (unfold quoted; rewrite Hp'; eauto).
      assert (Hterm : position_pnl prices p = position_pnl prices q)
        by (unfold position_pnl; rewrite Hp, Hp', Hq, Hpp; reflexivity).
      simpl. rewrite Hterm. apply IH.
    + assert (Hp' : prices !! ticker q = None)
        by (rewrite <- Ht; exact Hp).
      rewrite (filter_cons_False _ p)
        by (unfold quoted; rewrite Hp; intros [x Hx]; discriminate Hx).
      rewrite (filter_cons_False _ q)
        by (unfold quoted; rewrite Hp'; intros [x Hx]; discriminate Hx).
      apply IH.
Qed.

Lemma filter_quoted_none (prices : gmap string num) (positions : list Position) :
  (forall p, p ∈ positions -> ~ quoted prices p) ->
  filter (quoted prices) positions = [].
Proof.
  induction positions as [|p rest IH]; intros Hnone; [reflexivity|].
  rewrite filter_cons_False by (apply Hnone; left).
  apply IH. intros q Hq. apply Hnone. right. exact Hq.
Qed.

Lemma filter_quoted_all (prices : gmap string num) (positions : list Position) :
  (forall p, p ∈ positions -> quoted prices p) ->
  filter (quoted prices) positions = positions.
Proof.
  induction positions as [|p rest IH]; intros Hall; [reflexivity|].
  rewrite filter_cons_True by (apply Hall; left).
  f_equal. apply IH. intros q Hq. apply Hall. right. exact Hq.
Qed.

End QuoteFacts.

(** X12. In the price mapping both P&L functions build, a ticker quoted
    more than once gets the price of its last item in the summary, and a
    ticker the summary does not name gets none. *)
Theorem last_quote_wins {N : PyNumber}
    (market_summary : list MarketSummaryItem) (t : string) :
  price_lookup market_summary !! t
  = (fun item => to_float (ms_current_price item))
      <$> last_quote t market_summary.
Proof.
  unfold price_lookup. rewrite price_lookup_from, lookup_empty.
  destruct (last_quote t market_summary); reflexivity.
Qed.

(** X13. [analyze_tick] and [calculate_unrealized_pnl] compute the same
    unrealized P&L, a key absent from the payload counting as the empty
    list. *)
Theorem both_pnl_functions_agree {N : PyNumber} {D : PyDay}
    (payload : Payload) :
  business.summary_unrealized_pnl
      (business.summary (business.analyze_tick payload))
  = app.calculate_unrealized_pnl (default [] (Positions payload))
                                 (default [] (Market_Summary payload)).
Proof.
  unfold business.analyze_tick, app.calculate_unrealized_pnl. simpl.
  rewrite pnl_step_fold, calculate_unrealized_pnl_fold. reflexivity.
Qed.

(** X14. [positions_evaluated] never exceeds the number of positions; it
    equals it when the summary names every position's ticker; and when it
    names none of them (an absent or empty summary, say)
    [positions_evaluated] is 0 and the P&L is the initial 0.0. *)
Theorem positions_evaluated_bounds {N : PyNumber} {D : PyDay}
    (payload : Payload) :
  let positions := default [] (Positions payload) in
  let tickers := map ms_ticker (default [] (Market_Summary payload)) in
  let answer := business.summary (business.analyze_tick payload) in
  (business.positions_evaluated answer <= length positions)%nat /\
  ((forall p, p ∈ positions -> In (ticker p) tickers) ->
   business.positions_evaluated answer = length positions) /\
  ((forall p, p ∈ positions -> ~ In (ticker p) tickers) ->
   business.positions_evaluated answer = 0%nat /\
   business.summary_unrealized_pnl answer = zero).
Proof.
  intros positions tickers answer. subst answer.
  unfold business.analyze_tick. simpl. fold positions.
  rewrite pnl_step_fold. simpl.
  split; [apply length_filter|]. split.
  - intros Hall. rewrite filter_quoted_all; [reflexivity|].
    intros p Hp. apply price_lookup_quoted, Hall, Hp.
  - intros Hnone. rewrite filter_quoted_none; [split; reflexivity|].
    intros p Hp Hq. apply (Hnone p Hp). apply price_lookup_quoted, Hq.
Qed.

Lemma positions_evaluated_bounds_witness :
  (forall p, p ∈ [position_A] ->
             In (ticker p) (map ms_ticker summary_A_8)) /\
  (forall p, p ∈ [position_B] ->
             ~ In (ticker p) (map ms_ticker summary_A_8)) /\
  business.positions_evaluated
    (business.summary (business.analyze_tick
                         (payload_of [position_A] summary_A_8 []))) = 1%nat /\
  business.summary
    (business.analyze_tick (payload_of [position_B] summary_A_8 []))
    = {| business.positions_evaluated := 0;
         business.summary_unrealized_pnl := zero |}.
Proof.
  assert (HA : forall p, p ∈ [position_A] ->
                         In (ticker p) (map ms_ticker summary_A_8)).
  { intros p Hp. apply list_elem_of_singleton in Hp. subst p.
    left. reflexivity. }
  assert (HB : forall p, p ∈ [position_B] ->
                         ~ In (ticker p) (map ms_ticker summary_A_8)).
  { intros p Hp. apply list_elem_of_singleton in Hp. subst p.
    intros [Hin|[]]. discriminate Hin. }
  split; [exact HA|]. split; [exact HB|].
  destruct (positions_evaluated_bounds (D := ZDay)
              (payload_of [position_A] summary_A_8 [])) as (_ & Hall & _).
  destruct (positions_evaluated_bounds (D := ZDay)
              (payload_of [position_B] summary_A_8 [])) as (_ & _ & Hnone).
  split; [exact (Hall HA)|].
  destruct (Hnone HB) as [Hcount Hpnl].
  destruct (business.summary _) as [count pnl]. simpl in *.
  rewrite Hcount, Hpnl. reflexivity.
Defined.

(** X15. The unrealized P&L depends on a position's ticker, quantity and
    purchase price only: the current_price and unrealized_pnl a position
    carries are not read, the price comes from the market summary. *)
Theorem pnl_ignores_stale_fields {N : PyNumber}
    (positions positions' : list Position)
    (market_summary : list MarketSummaryItem) :
  Forall2 same_holding positions positions' ->
  app.calculate_unrealized_pnl positions market_summary
  = app.calculate_unrealized_pnl positions' market_summary.
Proof.
  intros Hsame. unfold app.calculate_unrealized_pnl.
  rewrite !calculate_unrealized_pnl_fold.
  apply pnl_of_quoted_same_holding, Hsame.
Qed.

Lemma pnl_ignores_stale_fields_witness :
  Forall2 same_holding [position_A]
    [{| ticker := "A"; quantity := qz 10; purchase_price := qz 5;
        current_price := qz 99; unrealized_pnl := qz 77 |}] /\
  app.calculate_unrealized_pnl
    [{| ticker := "A"; quantity := qz 10; purchase_price := qz 5;
        current_price := qz 99; unrealized_pnl := qz 77 |}] summary_A_8
  = qz 30.
Proof.
  assert (Hsame : Forall2 same_holding [position_A]
    [{| ticker := "A"; quantity := qz 10; purchase_price := qz 5;
        current_price := qz 99; unrealized_pnl := qz 77 |}]).
  { constructor; [repeat split | constructor]. }
  split; [exact Hsame|].
  rewrite <- (pnl_ignores_stale_fields _ _ summary_A_8 Hsame).
  vm_compute. reflexivity.
Defined.

(** ** app.py: every way a tick can end *)

Section TickFacts.
Context {N : PyNumber} {D : PyDay}.
Import ai_module app.

Variable chat_completions : NormalizedData -> ChatReply.
Variable make_trade : string -> list Decision -> MothershipReply.

(** A request that fails the field checks is answered 400 and changes
    nothing. *)
Lemma tick_rejected tid request w :
  accepted request = false ->
  exists msg,
    tick chat_completions make_trade tid request w
      = (Returns (failure 400 msg), w).
Proof.
  destruct request as [|td]; simpl; [eauto|].
  intros Hrej. unfold tick, no_data, try_except.
  destruct (Positions td) as [[|p ps]|];
    destruct (Market_Summary td) as [[|m ms]|];
    destruct (market_history td) as [[|h hs]|];
    simpl in *; try discriminate Hrej; eauto.
Qed.

Lemma accepted_fields td :
  accepted (Json td) = true ->
  exists positions market_summary history,
    Positions td = Some positions /\ positions <> [] /\
    Market_Summary td = Some market_summary /\ market_summary <> [] /\
    market_history td = Some history /\ history <> [].
Proof.
  simpl.
  destruct (Positions td) as [[|p ps]|];
    destruct (Market_Summary td) as [[|m ms]|];
    destruct (market_history td) as [[|h hs]|];
    simpl; try discriminate.
  intros _. eexists _, _, _. repeat split; discriminate.
Qed.

(** The five ways a request that passes the field checks can end. *)
Lemma tick_accepted_cases tid td w positions market_summary history :
  Positions td = Some positions -> positions <> [] ->
  Market_Summary td = Some market_summary -> market_summary <> [] ->
  market_history td = Some history -> history <> [] ->
  let nd := normalized positions market_summary history w in
  let recs := recommended (chat_completions nd) in
  let e1 := sent (env w) (ChatCompletion nd) in
  let e2 := sent e1 (MakeTrade tid recs) in
  let run := tick chat_completions make_trade tid (Json td) w in
  (key_missing (OPENAI_API_KEY (env w)) = true /\
   run = (Returns (failure 500 "OPENAI_API_KEY not found in .env file"),
          saved w positions (env w))) \/
  (key_missing (OPENAI_API_KEY (env w)) = false /\ recs = [] /\
   run = (Returns (success w positions market_summary history []),
          finished w tid positions market_summary history []
            no_recommendations e1)) \/
  (key_missing (OPENAI_API_KEY (env w)) = false /\ recs <> [] /\
   key_missing (MOTHERSHIP_API_KEY (env w)) = true /\
   run = (Returns (failure 500 "MOTHERSHIP_API_KEY not found in .env file"),
          saved w positions e1)) \/
  (key_missing (OPENAI_API_KEY (env w)) = false /\ recs <> [] /\
   key_missing (MOTHERSHIP_API_KEY (env w)) = false /\
   exists exc, make_trade tid recs = OtherException exc /\
     run = (Returns (failure 500 exc), saved w positions e2)) \/
  (key_missing (OPENAI_API_KEY (env w)) = false /\ recs <> [] /\
   key_missing (MOTHERSHIP_API_KEY (env w)) = false /\
   exists response, returned (make_trade tid recs) = Some response /\
     run = (Returns (success w positions market_summary history recs),
            finished w tid positions market_summary history recs
              response e2)).
Proof.
  intros Hp Hpne Hm Hmne Hh Hhne nd recs e1 e2 run. subst run.
  rewrite (tick_pipeline chat_completions make_trade tid td w
             positions market_summary history Hp Hpne Hm Hmne Hh Hhne).
  fold nd.
  unfold process_tick_with_ai, get_chatgpt_recommendation, bind, gets,
    raise, send, modify, ret.
  destruct (key_missing (OPENAI_API_KEY (env w))) eqn:Hkey.
  { left. split; reflexivity. }
  right. fold e1. subst e2 recs.
  destruct (chat_completions nd) as [x| |[[|r rest]|]] eqn:Hchat; simpl.
  1-3,5: left; split; [reflexivity|]; split; reflexivity.
  right.
  unfold post_trade_to_mothership, bind, gets, raise, send, modify, ret.
  cbn [MOTHERSHIP_API_KEY].
  destruct (key_missing (MOTHERSHIP_API_KEY (env w))) eqn:Hkey2.
  { left. split; [reflexivity|]. split; [discriminate|].
    split; reflexivity. }
  right.
  destruct (make_trade tid (r :: rest)) as [exc|exc|response] eqn:Hreply2.
  - right. split; [reflexivity|]. split; [discriminate|].
    split; [reflexivity|]. eexists. split; reflexivity.
  - left. split; [reflexivity|]. split; [discriminate|].
    split; [reflexivity|]. eexists. split; reflexivity.
  - right. split; [reflexivity|]. split; [discriminate|].
    split; [reflexivity|]. eexists. split; reflexivity.
Qed.

(** Every request ends in one of the outcomes above. *)
Lemma tick_outcomes tid request w :
  (accepted request = false /\
   exists msg, tick chat_completions make_trade tid request w
               = (Returns (failure 400 msg), w)) \/
  (accepted request = true /\
   exists td positions market_summary history,
     request = Json td /\
     Positions td = Some positions /\ positions <> [] /\
     Market_Summary td = Some market_summary /\
     market_history td = Some history /\ history <> [] /\
     let nd := normalized positions market_summary history w in
     let recs := recommended (chat_completions nd) in
     let e1 := sent (env w) (ChatCompletion nd) in
     let e2 := sent e1 (MakeTrade tid recs) in
     let run := tick chat_completions make_trade tid request w in
     (exists exc, run = (Returns (failure 500 exc), saved w positions (env w))) \/
     (recs = [] /\
      run = (Returns (success w positions market_summary history []),
             finished w tid positions market_summary history []
               no_recommendations e1)) \/
     (exists exc, run = (Returns (failure 500 exc), saved w positions e1)) \/
     (recs <> [] /\ exists exc,
        run = (Returns (failure 500 exc), saved w positions e2)) \/
     (recs <> [] /\ exists response,
        returned (make_trade tid recs) = Some response /\
        run = (Returns (success w positions market_summary history recs),
               finished w tid positions market_summary history recs
                 response e2))).
Proof.
  destruct (accepted request) eqn:Hacc.
  - right. split; [reflexivity|].
    destruct request as [|td]; [discriminate Hacc|].
    destruct (accepted_fields td Hacc)
      as (positions & market_summary & history &
          Hp & Hpne & Hm & Hmne & Hh & Hhne).
    exists td, positions, market_summary, history.
    do 6 (split; [assumption || reflexivity|]).
    destruct (tick_accepted_cases tid td w positions market_summary history
                Hp Hpne Hm Hmne Hh Hhne)
      as [(_ & Hrun) | [(_ & Hnil & Hrun) | [(_ & _ & _ & Hrun) |
          [(_ & Hne & _ & exc & _ & Hrun) |
           (_ & Hne & _ & response & Hret & Hrun)]]]].
    + left. eauto.
    + right. left. split; assumption.
    + right. right. left. eauto.
    + right. right. right. left. split; [exact Hne|]. eauto.
    + right. right. right. right. split; [exact Hne|]. eauto.
  - left. split; [reflexivity|]. apply tick_rejected, Hacc.
Qed.

End TickFacts.


(** X17. The trading log is append-only under [tick]: every entry that was
    there stays, in place, and exactly one entry is added when the answer is
    200, none otherwise. The entry added carries the trade id of the request
    and the very figures of the answer: P&L, number of positions, day and
    decisions. *)
Theorem tick_appends_to_log {N : PyNumber} {D : PyDay}
    (chat_completions : ai_module.NormalizedData -> ai_module.ChatReply)
    (make_trade : string -> list ai_module.Decision
                  -> ai_module.MothershipReply)
    (tid : string) (request : app.RequestBody) (w : app.World) :
  exists (answer : app.Response) (w' : app.World)
         (entries : list app.LogEntry),
    app.tick chat_completions make_trade tid request w
      = (Returns answer, w') /\
    trading_log w' = trading_log w ++ entries /\
    (app.status answer <> 200%Z ->
     entries = [] /\ app.TRADING_LOG_FILE w' = app.TRADING_LOG_FILE w) /\
    (app.status answer = 200%Z ->
     exists entry,
       entries = [entry] /\ app.trade_id entry = tid /\
       app.body answer
         = app.Success (app.log_unrealized_pnl entry)
                       (length (app.positions_before entry))
                       (app.log_day entry) (app.recommendations entry)).
Proof.
  destruct (tick_outcomes chat_completions make_trade tid request w)
    as [(Hrej & msg & Hrun) |
        (Hacc & td & positions & ms & hs & _ & _ & _ & _ & _ & _ & Hcases)].
  - exists (app.failure 400 msg), w, []. split; [exact Hrun|].
    split; [rewrite app_nil_r; reflexivity|].
    split; [tauto | discriminate].
  - cbv zeta in Hcases.
    destruct Hcases as [(exc & Hrun) | [(_ & Hrun) | [(exc & Hrun) |
                        [(_ & exc & Hrun) | (_ & response & _ & Hrun)]]]].
    + eexists _, _, []. split; [exact Hrun|].
      split; [rewrite app_nil_r; reflexivity|].
      split; [split; reflexivity | discriminate].
    + eexists _, _, [_]. split; [exact Hrun|].
      split; [reflexivity|].
      split; [intros Hne; destruct Hne; reflexivity|].
      intros _. eexists. repeat split.
    + eexists _, _, []. split; [exact Hrun|].
      split; [rewrite app_nil_r; reflexivity|].
      split; [split; reflexivity | discriminate].
    + eexists _, _, []. split; [exact Hrun|].
      split; [rewrite app_nil_r; reflexivity|].
      split; [split; reflexivity | discriminate].
    + eexists _, _, [_]. split; [exact Hrun|].
      split; [reflexivity|].
      split; [intros Hne; destruct Hne; reflexivity|].
      intros _. eexists. repeat split.
Qed.

(** X18. [tick] sends at most one request to the recommendation provider
    and at most one to the mothership, never a second try: the requests of a
    tick are none, or one chat completion, or one chat completion followed
    by one make_trade that carries the tick's trade id and the provider's
    trades, which are then not empty. The API keys in the environment are
    not changed. *)
Theorem tick_sends_each_request_once {N : PyNumber} {D : PyDay}
    (chat_completions : ai_module.NormalizedData -> ai_module.ChatReply)
    (make_trade : string -> list ai_module.Decision
                  -> ai_module.MothershipReply)
    (tid : string) (request : app.RequestBody) (w : app.World) :
  let w' := snd (app.tick chat_completions make_trade tid request w) in
  ai_module.OPENAI_API_KEY (app.env w')
    = ai_module.OPENAI_API_KEY (app.env w) /\
  ai_module.MOTHERSHIP_API_KEY (app.env w')
    = ai_module.MOTHERSHIP_API_KEY (app.env w) /\
  exists sent_now : list ai_module.Call,
    ai_module.calls (app.env w') = ai_module.calls (app.env w) ++ sent_now /\
    (sent_now = [] \/
     (exists nd, sent_now = [ai_module.ChatCompletion nd]) \/
     (exists nd,
        sent_now = [ai_module.ChatCompletion nd;
                    ai_module.MakeTrade tid
                      (recommended (chat_completions nd))] /\
        recommended (chat_completions nd) <> [])).
Proof.
  intros w'. subst w'.
  destruct (tick_outcomes chat_completions make_trade tid request w)
    as [(Hrej & msg & Hrun) |
        (Hacc & td & positions & ms & hs & _ & _ & _ & _ & _ & _ & Hcases)].
  - rewrite Hrun. simpl. split; [reflexivity|]. split; [reflexivity|].
    exists []. split; [rewrite app_nil_r; reflexivity | tauto].
  - cbv zeta in Hcases.
    destruct Hcases as [(exc & Hrun) | [(_ & Hrun) | [(exc & Hrun) |
                        [(Hne & exc & Hrun) | (Hne & response & _ & Hrun)]]]];
      rewrite Hrun; simpl; (split; [reflexivity|]); (split; [reflexivity|]).
    + exists []. split; [rewrite app_nil_r; reflexivity | tauto].
    + eexists [_]. split; [reflexivity|]. right. left. eauto.
    + eexists [_]. split; [reflexivity|]. right. left. eauto.
    + eexists [_; _]. split; [rewrite <- app_assoc; reflexivity|].
      right. right. eexists. split; [reflexivity | exact Hne].
    + eexists [_; _]. split; [rewrite <- app_assoc; reflexivity|].
      right. right. eexists. split; [reflexivity | exact Hne].
Qed.


Lemma tick_appends_to_log_witness :
  exists (answer : app.Response) (w' : app.World) (entry : app.LogEntry),
    app.tick chat_sell_A mothership_down "t1" (app.Json payload_A) world_0
      = (Returns answer, w') /\
    app.status answer = 200%Z /\
    trading_log w' = trading_log world_0 ++ [entry] /\
    app.trade_id entry = "t1".
Proof.
  destruct (tick_appends_to_log chat_sell_A mothership_down "t1"
              (app.Json payload_A) world_0)
    as (answer & w' & entries & Hrun & Hlog & _ & Hok).
  assert (Hstatus : app.status answer = 200%Z).
  { assert (Hfst : match fst (app.tick chat_sell_A mothership_down "t1"
                                (app.Json payload_A) world_0) with
                   | Returns a => app.status a
                   | Raises _ => 0%Z
                   end = 200%Z) by reflexivity.
    rewrite Hrun in Hfst. exact Hfst. }
  destruct (Hok Hstatus) as (entry & Hentries & Htid & _).
  exists answer, w', entry. rewrite Hentries in Hlog. tauto.
Defined.







(** X22. Behind [require_api_key], [tick] writes a file, calls a service
    or answers 200 only for a request that carries exactly the configured
    key, that key being set and not empty, and that passes the field checks.
    With no key configured every request is answered 500, a request without
    an apikey header included; with a key configured, any other key is
    answered 401. *)
Theorem only_keyed_requests_have_effects {N : PyNumber} {D : PyDay}
    (chat_completions : ai_module.NormalizedData -> ai_module.ChatReply)
    (make_trade : string -> list ai_module.Decision
                  -> ai_module.MothershipReply)
    (API_KEY provided_key : option string)
    (tid : string) (request : app.RequestBody) (w : app.World) :
  let run :=
    app_auth.require_api_key API_KEY provided_key
      (app.tick chat_completions make_trade tid request) w in
  ((snd run <> w \/
    exists answer, fst run = Returns answer /\ app.status answer = 200%Z) ->
   provided_key = API_KEY /\
   (exists k, API_KEY = Some k /\ k <> "") /\
   accepted request = true) /\
  (ai_module.key_missing API_KEY = true ->
   run = (Returns (app.failure 500 "Server API key not configured"), w)) /\
  (ai_module.key_missing API_KEY = false -> provided_key <> API_KEY ->
   run = (Returns (app.failure 401 "Invalid API key"), w)).
Proof.
  intros run. subst run. unfold app_auth.require_api_key.
  destruct (ai_module.key_missing API_KEY) eqn:Hkey.
  { split; [|split; [reflexivity | discriminate]].
    simpl. intros [Hw | (answer & Ha & Hs)]; [congruence|].
    injection Ha as <-. discriminate Hs. }
  destruct (bool_decide (provided_key = API_KEY)) eqn:Hsame; simpl.
  - apply bool_decide_eq_true in Hsame.
    split; [|split; [discriminate | congruence]].
    intros Heffect. split; [exact Hsame|]. split.
    { destruct API_KEY as [k|]; [|discriminate Hkey].
      exists k. split; [reflexivity|]. intros ->. discriminate Hkey. }
    destruct (accepted request) eqn:Hacc; [reflexivity|].
    destruct (tick_rejected chat_completions make_trade tid request w Hacc)
      as [msg Hrun].
    rewrite Hrun in Heffect. simpl in Heffect.
    destruct Heffect as [Hw | (answer & Ha & Hs)]; [congruence|].
    injection Ha as <-. discriminate Hs.
  - apply bool_decide_eq_false in Hsame.
    split; [|split; [discriminate | reflexivity]].
    simpl. intros [Hw | (answer & Ha & Hs)]; [congruence|].
    injection Ha as <-. discriminate Hs.
Qed.

Lemma only_keyed_requests_have_effects_witness :
  ai_module.key_missing (None : option string) = true /\
  ai_module.key_missing (Some "secret") = false /\
  Some "guess" <> Some "secret" /\
  app_auth.require_api_key None None
      (app.tick chat_sell_A mothership_down "t1" (app.Json payload_A)) world_0
    = (Returns (app.failure 500 "Server API key not configured"), world_0) /\
  app_auth.require_api_key (Some "secret") (Some "guess")
      (app.tick chat_sell_A mothership_down "t1" (app.Json payload_A)) world_0
    = (Returns (app.failure 401 "Invalid API key"), world_0) /\
  accepted (app.Json payload_A) = true.
Proof.
  assert (Hne : Some "guess" <> Some "secret") by discriminate.
  split; [reflexivity|]. split; [reflexivity|]. split; [exact Hne|].
  destruct (only_keyed_requests_have_effects chat_sell_A mothership_down
              None None "t1" (app.Json payload_A) world_0)
    as (_ & Hunset & _).
  destruct (only_keyed_requests_have_effects chat_sell_A mothership_down
              (Some "secret") (Some "guess") "t1" (app.Json payload_A) world_0)
    as (_ & _ & Hwrong).
  destruct (only_keyed_requests_have_effects chat_sell_A mothership_down
              (Some "secret") (Some "secret") "t1" (app.Json payload_A) world_0)
    as (Heffect & _ & _).
  split; [exact (Hunset eq_refl)|].
  split; [exact (Hwrong eq_refl Hne)|].
  apply Heffect. right. eexists. split; reflexivity.
Defined.
